(** * blstm_AlphaSeq_tapes: embedding, dataset access, training loop, loss report

    A shallow embedding of [regression_model/blstm_AlphaSeq_tapes.py].
    Python control flow (exceptions, [sys.exit], printing, module globals,
    files) is modelled by a small outcome-and-state monad; tensors are a
    size vector with row-major storage; the numeric framework, the
    pretrained encoder and the tokenizer are interfaces. *)

From Stdlib Require Import ZArith QArith List String Ascii Lia Bool DecimalString.
From stdpp Require Import base gmap strings list.

Local Open Scope Z_scope.

(** ** Python control flow *)

Module Py.

Inductive exn :=
| KeyError | ValueError | IndexError | UnboundLocalError | NameError
| RuntimeError | AttributeError | FileNotFoundError | StopIteration.

Inductive outcome (A : Type) :=
| Return (a : A)
| Raised (e : exn)
| Exited (status : Z).
Arguments Return {A} a.
Arguments Raised {A} e.
Arguments Exited {A} status.

Inductive stream := Stdout | Stderr.

(** What a [print] call was given: a formatted text, an integer, or an
    integer array (whose rendering is numpy's). *)
Inductive printed :=
| PText (s : string)
| PInt (n : Z)
| PArray (a : list Z).

Record event := Print { to : stream; what : printed }.

(** A state that carries the two output streams. *)
Class Console (S : Type) := emit : event -> S -> S.

#[export] Instance console_log : Console (list event) := fun e log => log ++ [e].

Definition M (S A : Type) : Type := S -> outcome A * S.

Definition ret {S A} (a : A) : M S A := fun s => (Return a, s).

Definition bind {S A B} (m : M S A) (k : A -> M S B) : M S B :=
  fun s =>
    match m s with
    | (Return a, s') => k a s'
    | (Raised e, s') => (Raised e, s')
    | (Exited c, s') => (Exited c, s')
    end.

Definition raise {S A} (e : exn) : M S A := fun s => (Raised e, s).

Definition sys_exit {S A} (status : Z) : M S A := fun s => (Exited status, s).

(** A pure computation that may raise, run inside the monad. *)
Definition lift {S A} (o : outcome A) : M S A := fun s => (o, s).

Definition print {S} `{Console S} (f : stream) (p : printed) : M S unit :=
  fun s => (Return tt, emit (Print f p) s).

Definition exn_eqb (a b : exn) : bool :=
  match a, b with
  | KeyError, KeyError | ValueError, ValueError | IndexError, IndexError
  | UnboundLocalError, UnboundLocalError | NameError, NameError
  | RuntimeError, RuntimeError | AttributeError, AttributeError
  | FileNotFoundError, FileNotFoundError | StopIteration, StopIteration => true
  | _, _ => false
  end.

(** [try: body except e: handler]. [sys.exit] raises SystemExit, which an
    [except] clause for another class does not catch. *)
Definition try_except {S A} (body : M S A) (e : exn) (handler : M S A) : M S A :=
  fun s =>
    match body s with
    | (Raised e', s') => if exn_eqb e' e then handler s' else (Raised e', s')
    | r => r
    end.

(** [str(n)] for an integer. *)
Definition str (n : Z) : string := NilZero.string_of_int (Z.to_int n).

(** [l[idx]] on a list: negative indices count from the end. *)
Definition getitem {A} (l : list A) (idx : Z) : outcome A :=
  let n := Z.of_nat (length l) in
  let i := if idx <? 0 then idx + n else idx in
  if (i <? 0) || (n <=? i) then Raised IndexError
  else match l !! Z.to_nat i with
       | Some x => Return x
       | None => Raised IndexError
       end.

(** [for x in xs: body x], threading a loop-carried value. *)
Fixpoint for_each {S X A} (xs : list X) (body : X -> A -> M S A) (acc : A) : M S A :=
  match xs with
  | [] => ret acc
  | x :: rest => bind (body x acc) (for_each rest body)
  end.

End Py.

Import Py.

Notation "x <- m ;; k" := (bind m (fun x => k))
  (at level 100, m at next level, right associativity).
Notation "m ;;; k" := (bind m (fun _ => k))
  (at level 100, right associativity).

(** ** Tensors and arrays

    A tensor is its size vector and its elements in row-major order, as
    the numeric framework stores it. *)

Module Torch.

Record tensor (A : Type) := Tensor { shape : list nat; data : list A }.
Arguments Tensor {A} shape data.
Arguments shape {A} t.
Arguments data {A} t.

(** [np.pad(a, (0, after), 'constant')] on a one-dimensional array: a
    negative width is a ValueError. *)
Definition np_pad (a : list Z) (after : Z) : outcome (list Z) :=
  if after <? 0 then Raised ValueError
  else Return (a ++ repeat 0 (Z.to_nat after)).

(** [torch.tensor(np.array(rows))] for rows of one length. *)
Definition torch_tensor (rows : list (list Z)) : tensor Z :=
  Tensor [length rows; length (hd [] rows)] (concat rows).

Definition max_list (l : list Z) : Z := fold_right Z.max 0 l.

Definition one_hot_row (num_classes : nat) (id : Z) : list Z :=
  map (fun k => if Z.of_nat k =? id then 1 else 0) (seq 0 num_classes).

(** [nn.functional.one_hot(t)] with the number of classes inferred: one
    more than the largest value. An empty tensor and a negative value
    are runtime errors. *)
Definition one_hot (t : tensor Z) : outcome (tensor Z) :=
  if (length (data t) =? 0)%nat then Raised RuntimeError
  else if existsb (fun x => x <? 0) (data t) then Raised RuntimeError
  else
    let num_classes := Z.to_nat (max_list (data t) + 1) in
    Return (Tensor (shape t ++ [num_classes])
                   (flat_map (one_hot_row num_classes) (data t))).

(** [torch.squeeze(t)]: every dimension of size one is dropped. *)
Definition squeeze {A} (t : tensor A) : tensor A :=
  Tensor (filter (fun d => d <> 1%nat) (shape t)) (data t).

(** Element [i, j, k] of a three-dimensional tensor. *)
Definition get3 (t : tensor Z) (i j k : nat) : option Z :=
  match shape t with
  | [d0; d1; d2] =>
      if decide (i < d0 /\ j < d1 /\ k < d2)%nat
      then data t !! ((i * d1 + j) * d2 + k)%nat
      else None
  | _ => None
  end.

End Torch.

Import Torch.

(** ** The tape package: tokenizer and pretrained encoder (interfaces) *)

Module Tape.

(** [TAPETokenizer.encode]: the token ids of a text, or an exception. *)
Record Tokenizer := { encode : string -> outcome (list Z) }.

(** [ProteinBertModel.__call__]: from a batch of token ids to the
    per-position output and the pooled output. *)
Record ProteinBertModel (F : Type) :=
  { forward : tensor Z -> outcome (tensor F * tensor F) }.
Arguments forward {F} p t.

(** The iupac vocabulary of the tape package and the tokenizer over it:
    one token per character between a start and a stop token; a token
    outside the vocabulary is a KeyError. The package is not part of the
    repository; the script builds its tokenizer with [vocab='iupac']. *)
Definition IUPAC_VOCAB : list (string * Z) :=
  [ ("<pad>", 0); ("<mask>", 1); ("<cls>", 2); ("<sep>", 3); ("<unk>", 4);
    ("A", 5); ("B", 6); ("C", 7); ("D", 8); ("E", 9); ("F", 10); ("G", 11);
    ("H", 12); ("I", 13); ("K", 14); ("L", 15); ("M", 16); ("N", 17);
    ("O", 18); ("P", 19); ("Q", 20); ("R", 21); ("S", 22); ("T", 23);
    ("U", 24); ("V", 25); ("W", 26); ("X", 27); ("Y", 28); ("Z", 29) ]%string.

Fixpoint vocab_lookup (vocab : list (string * Z)) (token : string) : option Z :=
  match vocab with
  | [] => None
  | (t, id) :: rest => if String.eqb t token then Some id else vocab_lookup rest token
  end.

Definition tokenize (text : string) : list string :=
  map (fun c => String c EmptyString) (list_ascii_of_string text).

Definition add_special_tokens (tokens : list string) : list string :=
  ["<cls>"%string] ++ tokens ++ ["<sep>"%string].

Definition convert_token_to_id (vocab : list (string * Z)) (token : string) : outcome Z :=
  match vocab_lookup vocab token with
  | Some id => Return id
  | None => Raised KeyError
  end.

Fixpoint convert_tokens_to_ids (vocab : list (string * Z)) (tokens : list string)
  : outcome (list Z) :=
  match tokens with
  | [] => Return []
  | t :: rest =>
      match convert_token_to_id vocab t with
      | Return id =>
          match convert_tokens_to_ids vocab rest with
          | Return ids => Return (id :: ids)
          | Raised e => Raised e
          | Exited c => Exited c
          end
      | Raised e => Raised e
      | Exited c => Exited c
      end
  end.

Definition iupac_encode (text : string) : outcome (list Z) :=
  convert_tokens_to_ids IUPAC_VOCAB (add_special_tokens (tokenize text)).

Definition TAPETokenizer_iupac : Tokenizer := {| encode := iupac_encode |}.

End Tape.

Import Tape.

(** ** class Transformer *)

Section Embedding.

Context {F : Type}.
Context {S : Type} `{Console S}.

Record Transformer :=
  { method : string;
    tape_tokenizer : Tokenizer;
    tape_model : option (ProteinBertModel F) }.

(** A feature tensor is of integers (one-hot) or of floats (encoder). *)
Inductive features :=
| IntTensor (t : tensor Z)
| FloatTensor (t : tensor F).

Definition features_shape (f : features) : list nat :=
  match f with
  | IntTensor t => shape t
  | FloatTensor t => shape t
  end.

(** [Transformer.__init__]; the two constructors of the tape package are
    arguments. *)
Definition Transformer__init__
    (TAPETokenizer : string -> Tokenizer)
    (from_pretrained : string -> ProteinBertModel F)
    (method : string) : M S Transformer :=
  let tape_tokenizer := TAPETokenizer "iupac"%string in
  if String.eqb method "one_hot" then
    ret {| method := "one_hot"; tape_tokenizer := tape_tokenizer; tape_model := None |}
  else if String.eqb method "tape" then
    ret {| method := "tape";
           tape_tokenizer := TAPETokenizer "iupac"%string;
           tape_model := Some (from_pretrained "bert-base"%string) |}
  else
    print Stderr (PText "unimplemented transform method") ;;;
    sys_exit 1.

Definition len (seq : string) : Z := Z.of_nat (String.length seq).

(** [Transformer._embed_tape]. The local [token] is bound only when the
    [try] block completes; the handler leaves it unbound. In the call
    [self.tape_model(token)] the attribute is read before the argument. *)
Definition _embed_tape (self : Transformer) (max_len : Z) (seq : string)
  : M S (tensor F) :=
  _token <- lift (encode (tape_tokenizer self) seq) ;;
  token <- try_except
             (let pad_len := max_len - len seq in
              padded_token <- lift (np_pad _token pad_len) ;;
              ret (Some (torch_tensor [padded_token])))
             ValueError
             (print Stdout (PInt (Z.of_nat (length _token))) ;;;
              print Stdout (PInt (len seq)) ;;;
              print Stdout (PArray _token) ;;;
              ret None) ;;
  out <- match tape_model self with
         | None => raise AttributeError
         | Some tape_model =>
             match token with
             | None => raise UnboundLocalError
             | Some token => lift (forward tape_model token)
             end
         end ;;
  let seq_embedding := fst out in
  ret (squeeze seq_embedding).

(** [Transformer._embed_one_hot]. *)
Definition _embed_one_hot (self : Transformer) (max_len : Z) (seq : string)
  : M S (tensor Z) :=
  _token <- lift (encode (tape_tokenizer self) seq) ;;
  try_except
    (let pad_len := max_len - len seq in
     padded_token <- lift (np_pad _token pad_len) ;;
     let token := torch_tensor [padded_token] in
     embedding <- lift (one_hot token) ;;
     ret embedding)
    KeyError
    (print Stderr (PText "Unknown key") ;;;
     sys_exit 1).

(** [Transformer.embed]. *)
Definition embed (self : Transformer) (max_len : Z) (seq : string) : M S features :=
  if String.eqb (method self) "one_hot" then
    t <- _embed_one_hot self max_len seq ;; ret (IntTensor t)
  else if String.eqb (method self) "tape" then
    t <- _embed_tape self max_len seq ;; ret (FloatTensor t)
  else
    print Stderr (PText ("Undefined embedding method: " +:+ method self)) ;;;
    sys_exit 1.

End Embedding.

Arguments Transformer F : clear implicits.
Arguments features F : clear implicits.

(** ** class AlphpaSeqDataset *)

Section Dataset.

Context {F : Type}.
Context {S : Type} `{Console S}.

Record AlphpaSeqDataset :=
  { csv_file : string;
    labels : list string;
    seqs : list string;
    log10_ka : list F;
    _longest_seq : Z;
    transformer : Transformer F }.

(** [line.split(',')]. *)
Fixpoint split_on (sep : ascii) (s : string) : list string :=
  match s with
  | EmptyString => [EmptyString]
  | String c rest =>
      if Ascii.eqb c sep then EmptyString :: split_on sep rest
      else match split_on sep rest with
           | [] => [String c EmptyString]
           | w :: ws => String c w :: ws
           end
  end.

(** [max(seqs, key=len)]: the first of the longest; ValueError when the
    list is empty. *)
Fixpoint longest_of (best : string) (rest : list string) : string :=
  match rest with
  | [] => best
  | s :: rest' => longest_of (if len best <? len s then s else best) rest'
  end.

Definition max_key_len (l : list string) : outcome string :=
  match l with
  | [] => Raised ValueError
  | s :: rest => Return (longest_of s rest)
  end.

(** One turn of the loop of [_load_csv]: three appends, in the source's
    order; [np_float32] parses the target column. *)
Definition load_line (np_float32 : string -> option F) (line : string)
    (acc : list string * list string * list F)
  : M S (list string * list string * list F) :=
  let '(labels, seqs, log10_ka) := acc in
  let line := split_on "," line in
  c0 <- lift (getitem line 0) ;;
  let labels := labels ++ [c0] in
  c1 <- lift (getitem line 1) ;;
  let seqs := seqs ++ [c1] in
  c14 <- lift (getitem line 14) ;;
  match np_float32 c14 with
  | None => raise ValueError
  | Some x => ret (labels, seqs, log10_ka ++ [x])
  end.

(** [_load_csv]; [fs] gives the lines of the text files that exist. *)
Definition _load_csv (fs : gmap string (list string))
    (np_float32 : string -> option F) (csv_file : string)
  : M S (list string * list string * list F) :=
  try_except
    (match fs !! csv_file with
     | None => raise FileNotFoundError
     | Some [] => raise StopIteration
     | Some (_header :: lines) => for_each lines (load_line np_float32) ([], [], [])
     end)
    FileNotFoundError
    (print Stderr (PText ("File not found error: " +:+ csv_file +:+ ".")) ;;;
     sys_exit 1).

(** [AlphpaSeqDataset.__init__]. *)
Definition AlphpaSeqDataset__init__ (fs : gmap string (list string))
    (np_float32 : string -> option F)
    (csv_file : string) (transformer : Transformer F) : M S AlphpaSeqDataset :=
  loaded <- _load_csv fs np_float32 csv_file ;;
  let '(labels, seqs, log10_ka) := loaded in
  longest <- lift (max_key_len seqs) ;;
  ret {| csv_file := csv_file;
         labels := labels;
         seqs := seqs;
         log10_ka := log10_ka;
         _longest_seq := len longest;
         transformer := transformer |}.

(** [AlphpaSeqDataset.__len__]. *)
Definition __len__ (self : AlphpaSeqDataset) : Z := Z.of_nat (length (labels self)).

(** [AlphpaSeqDataset.__getitem__]. *)
Definition __getitem__ (self : AlphpaSeqDataset) (idx : Z)
  : M S (string * features F * F) :=
  try_except
    (seq <- lift (getitem (seqs self) idx) ;;
     features <- embed (transformer self) (_longest_seq self) seq ;;
     label <- lift (getitem (labels self) idx) ;;
     target <- lift (getitem (log10_ka self) idx) ;;
     ret (label, features, target))
    IndexError
    (print Stderr (PText ("List index out of range: " +:+ str idx +:+
                          ", length: " +:+ str (Z.of_nat (length (labels self))) +:+ ".")) ;;;
     sys_exit 1).

(** The three columns of a loaded dataset have one length, and no
    sequence is longer than [_longest_seq]. *)
Definition well_formed (self : AlphpaSeqDataset) : Prop :=
  length (seqs self) = length (labels self) /\
  length (log10_ka self) = length (labels self) /\
  Forall (fun s => len s <= _longest_seq self) (seqs self).

End Dataset.

Arguments AlphpaSeqDataset F : clear implicits.

(** ** The numeric framework (interface)

    What [run_lstm] and [plot_history] ask of torch, pandas and the
    plotting packages: floats, the model's parameters and gradients, the
    optimizer, and batch iteration. The model is the one object the
    script builds; its parameters and gradients live in the state. *)

Class Framework :=
  { Float : Type;
    zero : Float;                              (* the literal 0 *)
    fadd : Float -> Float -> Float;            (* += on losses *)
    fdiv_int : Float -> Z -> Float;            (* column / count *)
    float_repr : Float -> string;
    Params : Type;                             (* model.state_dict() *)
    Grads : Type;                              (* the .grad of the parameters *)
    OptState : Type;                           (* optimizer.state_dict() *)
    Dataset : Type;
    dataset_len : Dataset -> Z;                (* len(dataset) *)
    Batch : Type;                              (* (label, feature, target) *)
    Pred : Type;
    Loss : Type;
    Rng : Type;                                (* the global random state *)
    SGD : Params -> Q -> OptState;
    iterate : Dataset -> Z -> bool -> Rng -> list Batch * Rng;
    zero_grad : Grads -> Grads;
    model_forward : Params -> Batch -> Pred;   (* model(feature).flatten() *)
    loss_fn : Pred -> Batch -> Loss;           (* MSELoss(reduction='sum') *)
    item : Loss -> Float;
    backward : Params -> Batch -> Grads -> Grads;
    step : OptState -> Params -> Grads -> Params * OptState;
    frame_repr : list Z -> list (string * list Float) -> string }.

Section Training.

Context `{Framework}.

Inductive cell :=
| CText (s : string)
| CInt (n : Z)
| CFloat (x : Float).

(** A rendered chart: labels and the plotted series. *)
Record Figure :=
  { xlabel : string; ylabel : string; title : string;
    series : list (string * list Z * list Float) }.

Inductive file :=
| Checkpoint (epoch : Z) (model_state_dict : Params) (optimizer_state_dict : OptState)
| Csv (table : list (list cell))
| Png (fig : Figure).

Record world :=
  { console : list event;
    files : gmap string file;
    writes : list (string * file);             (* every write, in order *)
    globals : gmap string Z;                   (* the module's namespace *)
    rng : Rng;
    params : Params;
    grads : Grads;
    opt_state : OptState }.

#[export] Instance console_world : Console world := fun e w =>
  {| console := console w ++ [e]; files := files w; writes := writes w;
     globals := globals w; rng := rng w; params := params w; grads := grads w;
     opt_state := opt_state w |}.

Definition write_file (path : string) (f : file) : M world unit := fun w =>
  (Return tt,
   {| console := console w; files := <[path := f]> (files w);
      writes := writes w ++ [(path, f)];
      globals := globals w; rng := rng w; params := params w; grads := grads w;
      opt_state := opt_state w |}).

(** A name that is neither a local nor a parameter is looked up in the
    module's namespace. *)
Definition load_global (name : string) : M world Z := fun w =>
  match globals w !! name with
  | Some v => (Return v, w)
  | None => (Raised NameError, w)
  end.

Record Loader := { dataset : Dataset; batch_size : Z; shuffle : bool }.

(** [DataLoader(dataset, batch_size=..., shuffle=...)]: with [shuffle]
    the random sampler is built first and refuses a dataset without
    samples; then the batch sampler refuses a batch size that is not
    positive. Both are a ValueError. *)
Definition DataLoader (dataset : Dataset) (batch_size : Z) (shuffle : bool)
  : M world Loader :=
  if shuffle && (dataset_len dataset <=? 0) then raise ValueError
  else if batch_size <=? 0 then raise ValueError
  else ret {| dataset := dataset; batch_size := batch_size; shuffle := shuffle |}.

(** Starting an iteration over a loader draws its batches from the
    random state. *)
Definition batches (l : Loader) : M world (list Batch) := fun w =>
  let '(bs, r) := iterate (dataset l) (batch_size l) (shuffle l) (rng w) in
  (Return bs,
   {| console := console w; files := files w; writes := writes w;
      globals := globals w; rng := r; params := params w; grads := grads w;
      opt_state := opt_state w |}).

Definition set_optimizer (o : OptState) : M world unit := fun w =>
  (Return tt,
   {| console := console w; files := files w; writes := writes w;
      globals := globals w; rng := rng w; params := params w; grads := grads w;
      opt_state := o |}).

(** One training batch (lines 239-245): zero the gradients, forward,
    loss, backward, optimizer step. *)
Definition train_batch (b : Batch) (train_loss : Float) : M world Float := fun w =>
  let g0 := zero_grad (grads w) in
  let pred := model_forward (params w) b in
  let batch_loss := loss_fn pred b in
  let train_loss := fadd train_loss (item batch_loss) in
  let g1 := backward (params w) b g0 in
  let '(p1, o1) := step (opt_state w) (params w) g1 in
  (Return train_loss,
   {| console := console w; files := files w; writes := writes w;
      globals := globals w; rng := rng w; params := p1; grads := g1;
      opt_state := o1 |}).

(** One test batch (lines 249-253): forward and loss under [no_grad]. *)
Definition test_batch (b : Batch) (test_loss : Float) : M world Float := fun w =>
  let pred := model_forward (params w) b in
  let batch_loss := loss_fn pred b in
  (Return (fadd test_loss (item batch_loss)), w).

(** The test pass of an epoch (lines 248-253). *)
Definition test_pass (test_loader : Loader) (test_loss : Float) : M world Float :=
  bs <- batches test_loader ;;
  for_each bs test_batch test_loss.

(** The two loaders of an epoch (lines 234-235). *)
Definition epoch_loaders (train_set test_set : Dataset) (batch_size : Z)
  : M world (Loader * Loader) :=
  b1 <- load_global "BATCH_SIZE" ;;
  train_loader <- DataLoader train_set b1 true ;;
  b2 <- load_global "BATCH_SIZE" ;;
  test_loader <- DataLoader test_set b2 true ;;
  ret (train_loader, test_loader).

(** [save_model]. *)
Definition save_model (epoch : Z) (save_as : string) : M world unit := fun w =>
  write_file save_as (Checkpoint epoch (params w) (opt_state w)) w.

Definition progress (epoch : Z) (train_loss test_loss : Float) : printed :=
  PText ("Epoch " +:+ str epoch +:+ ", Train MSE: " +:+ float_repr train_loss +:+
         ", Test MSE: " +:+ float_repr test_loss).

(** The body of the epoch loop of [run_lstm] (lines 231-263). *)
Definition epoch_body (train_set test_set : Dataset) (batch_size : Z) (save_as : string)
    (epoch : Z) (history : list Float * list Float)
  : M world (list Float * list Float) :=
  let '(train_loss_history, test_loss_history) := history in
  let train_loss := zero in
  let test_loss := zero in
  loaders <- epoch_loaders train_set test_set batch_size ;;
  let '(train_loader, test_loader) := loaders in
  train_batches <- batches train_loader ;;
  train_loss <- for_each train_batches train_batch train_loss ;;
  test_loss <- test_pass test_loader test_loss ;;
  let train_loss_history := train_loss_history ++ [train_loss] in
  let test_loss_history := test_loss_history ++ [test_loss] in
  (if epoch <? 11 then print Stdout (progress epoch train_loss test_loss)
   else if epoch mod 10 =? 0 then print Stdout (progress epoch train_loss test_loss)
   else ret tt) ;;;
  save_model epoch (save_as +:+ ".model_save") ;;;
  ret (train_loss_history, test_loss_history).

(** [range(lo, hi)]. *)
Definition range (lo hi : Z) : list Z :=
  map (fun i => lo + Z.of_nat i) (seq 0 (Z.to_nat (hi - lo))).

(** [run_lstm]. *)
Definition run_lstm (train_set test_set : Dataset) (n_epochs batch_size : Z)
    (device save_as : string) : M world (list Float * list Float) :=
  let L_RATE := (1 # 100000)%Q in
  (fun w => set_optimizer (SGD (params w) L_RATE) w) ;;;
  for_each (range 1 (n_epochs + 1))
           (epoch_body train_set test_set batch_size save_as) ([], []).

(** ** plot_history *)

Record DataFrame := { index : list Z; columns : list (string * list Float) }.

(** [df[name]]. *)
Fixpoint df_get (cols : list (string * list Float)) (name : string)
  : outcome (list Float) :=
  match cols with
  | [] => Raised KeyError
  | (n, c) :: rest => if String.eqb n name then Return c else df_get rest name
  end.

(** [df[name] = col]: in place when the column exists, else appended. *)
Fixpoint df_set (cols : list (string * list Float)) (name : string) (col : list Float)
  : list (string * list Float) :=
  match cols with
  | [] => [(name, col)]
  | (n, c) :: rest =>
      if String.eqb n name then (n, col) :: rest else (n, c) :: df_set rest name col
  end.

(** [df.to_csv(path)] with its defaults: a header of the column names
    behind an empty cell for the index, then a row per index entry. *)
Definition to_csv (df : DataFrame) : list (list cell) :=
  (CText "" :: map (fun c => CText (fst c)) (columns df)) ::
  imap (fun k i => CInt i :: map CFloat (omap (fun c => snd c !! k) (columns df)))
       (index df).

Definition scatter (df : DataFrame) (y : string) : M world (string * list Z * list Float) :=
  ys <- lift (df_get (columns df) y) ;;
  ret (y, index df, ys).

(** [plot_history]. *)
Definition plot_history (train_losses : list Float) (n_train : Z)
    (test_losses : list Float) (n_test : Z) (save_as : string) : M world unit :=
  let rows := combine train_losses test_losses in
  let history_df :=
    {| index := range 0 (Z.of_nat (length rows));
       columns := [("training"%string, map fst rows); ("testing"%string, map snd rows)] |} in
  training <- lift (df_get (columns history_df) "training") ;;
  let history_df :=
    {| index := index history_df;
       columns := df_set (columns history_df) "training"
                         (map (fun x => fdiv_int x n_train) training) |} in
  testing <- lift (df_get (columns history_df) "testing") ;;
  let history_df :=
    {| index := index history_df;
       columns := df_set (columns history_df) "testing"
                         (map (fun x => fdiv_int x n_test) testing) |} in
  print Stdout (PText (frame_repr (index history_df) (columns history_df))) ;;;
  s1 <- scatter history_df "training" ;;
  s2 <- scatter history_df "testing" ;;
  let fig := {| xlabel := "Epochs"; ylabel := "Average MSE per sample";
                title := "Effect of Epochs on MSE"; series := [s1; s2] |} in
  write_file (save_as +:+ ".png") (Png fig) ;;;
  write_file (save_as +:+ ".csv") (Csv (to_csv history_df)).

End Training.

(** ** Concrete instances, for evaluation

    The script's one-hot and TAPE transformers over the iupac tokenizer,
    the four-sample dataset of the end-to-end scenario, and a small
    instance of the framework interface. *)

Module Demo.

(** An encoder with the output sizes of the pretrained one (a sequence
    output of [batch, positions, hidden] and a pooled output of
    [batch, hidden]); its entries are all zero, only its sizes are used. *)
Definition zero_encoder (hidden : nat) : ProteinBertModel Q :=
  {| forward := fun token =>
       match shape token with
       | [b; l] =>
           Return (Tensor [b; l; hidden] (repeat 0%Q (b * l * hidden)),
                   Tensor [b; hidden] (repeat 0%Q (b * hidden)))
       | _ => Raised RuntimeError
       end |}.

Definition one_hot_transformer : Transformer Q :=
  {| method := "one_hot"; tape_tokenizer := TAPETokenizer_iupac; tape_model := None |}.

Definition tape_transformer : Transformer Q :=
  {| method := "tape"; tape_tokenizer := TAPETokenizer_iupac;
     tape_model := Some (zero_encoder 768) |}.

Definition demo_csv : list string :=
  [ "label,seq,c2,c3,c4,c5,c6,c7,c8,c9,c10,c11,c12,c13,log10_ka";
    "s0,ACD,0,0,0,0,0,0,0,0,0,0,0,0,1.0";
    "s1,ACDEF,0,0,0,0,0,0,0,0,0,0,0,0,2.0";
    "s2,ACDE,0,0,0,0,0,0,0,0,0,0,0,0,1.5";
    "s3,ACDEFG,0,0,0,0,0,0,0,0,0,0,0,0,3.0" ]%string.

Definition demo_fs : gmap string (list string) := {[ "test_reg.csv"%string := demo_csv ]}.

(** The four numerals of [demo_csv], as [np.float32] reads them. *)
Definition demo_float32 (s : string) : option Q :=
  if String.eqb s "1.0" then Some 1%Q
  else if String.eqb s "2.0" then Some 2%Q
  else if String.eqb s "1.5" then Some (3 # 2)%Q
  else if String.eqb s "3.0" then Some 3%Q
  else None.

Definition demo_dataset : AlphpaSeqDataset Q :=
  {| csv_file := "test_reg.csv";
     labels := ["s0"; "s1"; "s2"; "s3"]%string;
     seqs := ["ACD"; "ACDEF"; "ACDE"; "ACDEFG"]%string;
     log10_ka := [1; 2; 3 # 2; 3]%Q;
     _longest_seq := 6;
     transformer := one_hot_transformer |}.

(** Batches of at most [n] items, in order. *)
Fixpoint chunks (fuel n : nat) (l : list Z) : list (list Z) :=
  match fuel with
  | O => []
  | Datatypes.S fuel' =>
      match l with
      | [] => []
      | _ => take n l :: chunks fuel' n (drop n l)
      end
  end.

Definition sum_list (l : list Z) : Z := fold_right Z.add 0 l.

(** A one-parameter model fitted to integer targets: the prediction is
    the parameter, the loss the summed squared error. *)
Definition toy : Framework :=
  {| Float := Q;
     zero := 0%Q;
     fadd := fun a b => Qred (a + b);
     fdiv_int := fun a n => Qred (a / inject_Z n);
     float_repr := fun q => str (Qnum q) +:+ "/" +:+ str (Z.pos (Qden q));
     Params := Z;
     Grads := Z;
     OptState := nat;
     Dataset := list Z;
     dataset_len := fun ds => Z.of_nat (length ds);
     Batch := list Z;
     Pred := list Z;
     Loss := Z;
     Rng := nat;
     SGD := fun _ _ => O;
     iterate := fun ds b _ r => (chunks (length ds) (Z.to_nat b) (rotate r ds), Datatypes.S r);
     zero_grad := fun _ => 0;
     model_forward := fun p b => map (fun _ => p) b;
     loss_fn := fun pred b => sum_list (zip_with (fun y t => (y - t) * (y - t)) pred b);
     item := inject_Z;
     backward := fun p b g => g + sum_list (map (fun t => 2 * (p - t)) b);
     step := fun o p g => (p - g, Datatypes.S o);
     frame_repr := fun _ _ => "" |}.

(** The state in which the script calls [run_lstm]: [BATCH_SIZE] is 32. *)
Definition script_world : @world toy :=
  @Build_world toy [] ∅ [] {[ "BATCH_SIZE"%string := 32 ]} O 0 0 O.

End Demo.

(** ** Reading a loaded dataset back

    The field of a line that [_load_csv] takes for a column. *)

Definition column (k : nat) (line : string) : string :=
  nth k (split_on "," line) ""%string.

(** A line that [_load_csv] accepts: fifteen fields or more, the
    fifteenth a numeral of [np_float32]. *)
Definition loadable {F : Type} (np_float32 : string -> option F) (line : string) : Prop :=
  (15 <= length (split_on "," line))%nat /\ is_Some (np_float32 (column 14 line)).

(** ** Further instances, for evaluation *)

Module DemoMore.

(** An encoder with a position table of [max_positions] rows: a longer
    input is an IndexError of the table lookup; otherwise the sizes of
    [Demo.zero_encoder]. *)
Definition short_encoder (max_positions hidden : nat) : ProteinBertModel Q :=
  {| forward := fun token =>
       match shape token with
       | [b; l] =>
           if (max_positions <? l)%nat then Raised IndexError
           else Return (Tensor [b; l; hidden] (repeat 0%Q (b * l * hidden)),
                        Tensor [b; hidden] (repeat 0%Q (b * hidden)))
       | _ => Raised RuntimeError
       end |}.

(** The scenario dataset with the TAPE transformer. *)
Definition tape_dataset : AlphpaSeqDataset Q :=
  {| csv_file := "test_reg.csv";
     labels := ["s0"; "s1"; "s2"; "s3"]%string;
     seqs := ["ACD"; "ACDEF"; "ACDE"; "ACDEFG"]%string;
     log10_ka := [1; 2; 3 # 2; 3]%Q;
     _longest_seq := 6;
     transformer := Demo.tape_transformer |}.

(** The same dataset over an encoder of at most six positions. *)
Definition short_dataset : AlphpaSeqDataset Q :=
  {| csv_file := "test_reg.csv";
     labels := ["s0"; "s1"; "s2"; "s3"]%string;
     seqs := ["ACD"; "ACDEF"; "ACDE"; "ACDEFG"]%string;
     log10_ka := [1; 2; 3 # 2; 3]%Q;
     _longest_seq := 6;
     transformer :=
       {| method := "tape"; tape_tokenizer := TAPETokenizer_iupac;
          tape_model := Some (short_encoder 6 768) |} |}.

End DemoMore.

(** ** Reading a run back *)

Section RunReadback.

Context `{Framework}.




(** The last two statements of the script (lines 367-369): the run, then
    the loss report under the same path prefix. *)
Definition train_and_report (train_set test_set : Dataset) (n_epochs batch_size : Z)
    (device : string) (n_train n_test : Z) (model_result : string) : M world unit :=
  losses <- run_lstm train_set test_set n_epochs batch_size device model_result ;;
  plot_history (fst losses) n_train (snd losses) n_test model_result.

End RunReadback.

(** ** count_parameters *)

Section CountParameters.

Context {S : Type} `{Console S}.

(** A parameter tensor, as far as [count_parameters] reads it. *)
Record TensorParameter := { requires_grad : bool; size : list nat }.

(** [parameter.numel()]. *)
Definition numel (p : TensorParameter) : Z := Z.of_nat (fold_right Nat.mul 1%nat (size p)).

Record PrettyTable := { field_names : list string; rows : list (string * Z) }.

Definition add_row (table : PrettyTable) (row : string * Z) : PrettyTable :=
  {| field_names := field_names table; rows := rows table ++ [row] |}.

Definition newline : string := String "010"%char EmptyString.

(** [count_parameters]; [table_str] is the rendering of a PrettyTable,
    [named_parameters] what [model.named_parameters()] yields. *)
Definition count_parameters (table_str : PrettyTable -> string)
    (named_parameters : list (string * TensorParameter)) : M S Z :=
  let table := {| field_names := ["Modules"; "Parameters"]%string; rows := [] |} in
  let total_params := 0 in
  acc <- for_each named_parameters
           (fun np acc =>
              let '(name, parameter) := np in
              let '(table, total_params) := acc in
              if negb (requires_grad parameter) then ret (table, total_params)
              else
                let params := numel parameter in
                let table := add_row table (name, params) in
                ret (table, total_params + params))
           (table, total_params) ;;
  let '(table, total_params) := acc in
  print Stdout (PText (table_str table)) ;;;
  print Stdout (PText ("Total Trainable Params: " +:+ str total_params +:+ newline)) ;;;
  ret total_params.

(** The parameters that are counted, with their element counts. *)
Definition trainable (named_parameters : list (string * TensorParameter)) : list (string * Z) :=
  map (fun np => (fst np, numel (snd np)))
      (List.filter (fun np => requires_grad (snd np)) named_parameters).

(** The sum of the element counts of table rows. *)
Definition sum_counts (rows : list (string * Z)) : Z :=
  fold_right Z.add 0 (map snd rows).

End CountParameters.

Module DemoRun.


(** The parameters of a one-layer bidirectional LSTM of input size 3 and
    hidden size 2 with the two linear layers (widths 4 to 5 to 1), the
    input weights of the reverse direction frozen. *)
Definition small_blstm_parameters : list (string * TensorParameter) :=
  [ ("lstm.weight_ih_l0", {| requires_grad := true; size := [8; 3]%nat |});
    ("lstm.weight_hh_l0", {| requires_grad := true; size := [8; 2]%nat |});
    ("lstm.bias_ih_l0", {| requires_grad := true; size := [8]%nat |});
    ("lstm.bias_hh_l0", {| requires_grad := true; size := [8]%nat |});
    ("lstm.weight_ih_l0_reverse", {| requires_grad := false; size := [8; 3]%nat |});
    ("lstm.weight_hh_l0_reverse", {| requires_grad := true; size := [8; 2]%nat |});
    ("lstm.bias_ih_l0_reverse", {| requires_grad := true; size := [8]%nat |});
    ("lstm.bias_hh_l0_reverse", {| requires_grad := true; size := [8]%nat |});
    ("fcn.weight", {| requires_grad := true; size := [5; 4]%nat |});
    ("fcn.bias", {| requires_grad := true; size := [5]%nat |});
    ("out.weight", {| requires_grad := true; size := [1; 5]%nat |});
    ("out.bias", {| requires_grad := true; size := [1]%nat |}) ]%string.

End DemoRun.


(** ** An instance with an untokenizable sequence *)

Module DemoEdge.

(** A two-sample dataset with the one-hot transformer whose last
    sequence holds a character outside the iupac vocabulary. *)
Definition starred_dataset : AlphpaSeqDataset Q :=
  {| csv_file := "starred.csv";
     labels := ["s0"; "s1"]%string;
     seqs := ["ACD"; "A*"]%string;
     log10_ka := [1; 2]%Q;
     _longest_seq := 3;
     transformer := Demo.one_hot_transformer |}.

End DemoEdge.

(** * Properties *)

(** ** Running the monad *)

Ltac run :=
  unfold bind, ret, lift, raise, sys_exit, print, try_except; simpl.

Lemma np_pad_ok (a : list Z) (k : Z) :
  0 <= k -> np_pad a k = Return (a ++ repeat 0 (Z.to_nat k)).
Proof.
  intros Hk. unfold np_pad.
  destruct (Z.ltb_spec k 0) as [Hlt|_]; [lia | reflexivity].
Qed.

Lemma np_pad_negative (a : list Z) (k : Z) :
  np_pad a k = Raised ValueError <-> k < 0.
Proof.
  unfold np_pad. destruct (Z.ltb_spec k 0) as [Hlt|Hge]; split; intros Hx;
    try reflexivity; try assumption; try discriminate; lia.
Qed.

Lemma existsb_negative_false (l : list Z) :
  Forall (fun x => 0 <= x) l -> existsb (fun x => x <? 0) l = false.
Proof.
  induction 1 as [|x l Hx _ IH]; simpl; [reflexivity|].
  rewrite IH. destruct (Z.ltb_spec x 0); [lia | reflexivity].
Qed.

Lemma Forall_nonneg_padded (toks : list Z) (k : nat) :
  Forall (fun x => 0 <= x) toks -> Forall (fun x => 0 <= x) (toks ++ repeat 0 k).
Proof.
  intros Ht. apply Forall_app. split; [assumption|].
  induction k as [|k IH]; simpl; constructor; [lia | assumption].
Qed.

Lemma max_list_nonneg (l : list Z) : 0 <= max_list l.
Proof. induction l as [|x l IH]; simpl; lia. Qed.

Lemma max_list_ge (l : list Z) (x : Z) : In x l -> x <= max_list l.
Proof.
  induction l as [|y l IH]; simpl; [tauto|].
  intros [->|Hin]; [lia | specialize (IH Hin); lia].
Qed.

Lemma max_list_padded (toks : list Z) (k : nat) :
  max_list (toks ++ repeat 0 k) = max_list toks.
Proof.
  induction toks as [|x toks IH]; simpl.
  - induction k as [|k IHk]; simpl; [reflexivity | rewrite IHk; reflexivity].
  - rewrite IH. reflexivity.
Qed.

(** [one_hot] on a non-empty tensor of non-negative values. *)
Lemma one_hot_ok (t : tensor Z) :
  data t <> [] -> Forall (fun x => 0 <= x) (data t) ->
  one_hot t =
    Return (Tensor (shape t ++ [Z.to_nat (max_list (data t) + 1)])
                   (flat_map (one_hot_row (Z.to_nat (max_list (data t) + 1))) (data t))).
Proof.
  intros Hne Hpos. unfold one_hot.
  destruct (data t) as [|x l] eqn:Hd; [congruence|].
  cbn [length Nat.eqb]. rewrite (existsb_negative_false _ Hpos). reflexivity.
Qed.

Lemma one_hot_row_length (c : nat) (id : Z) : length (one_hot_row c id) = c.
Proof. unfold one_hot_row. rewrite length_map, length_seq. reflexivity. Qed.

Lemma one_hot_row_lookup (c k : nat) (id : Z) :
  (k < c)%nat -> one_hot_row c id !! k = Some (if Z.of_nat k =? id then 1 else 0).
Proof.
  intros Hk. unfold one_hot_row.
  rewrite list_lookup_fmap, lookup_seq_lt by assumption. reflexivity.
Qed.

(** Row [j] of the flattened one-hot rows is the row of the [j]-th id. *)
Lemma flat_one_hot_lookup (c : nat) (ids : list Z) (j k : nat) (id : Z) :
  ids !! j = Some id -> (k < c)%nat ->
  flat_map (one_hot_row c) ids !! (j * c + k)%nat =
    Some (if Z.of_nat k =? id then 1 else 0).
Proof.
  revert j. induction ids as [|a ids IH]; intros j Hj Hk; [discriminate|].
  simpl. destruct j as [|j]; simpl in *.
  - injection Hj as ->. rewrite lookup_app_l by (rewrite one_hot_row_length; lia).
    apply one_hot_row_lookup; assumption.
  - rewrite lookup_app_r by (rewrite one_hot_row_length; lia).
    rewrite one_hot_row_length.
    replace (c + j * c + k - c)%nat with (j * c + k)%nat by lia.
    apply IH; assumption.
Qed.

Lemma convert_tokens_to_ids_length vocab (tokens : list string) (ids : list Z) :
  convert_tokens_to_ids vocab tokens = Return ids -> length ids = length tokens.
Proof.
  revert ids. induction tokens as [|t tokens IH]; intros ids; simpl.
  - intros [= <-]. reflexivity.
  - destruct (convert_token_to_id vocab t); try discriminate.
    destruct (convert_tokens_to_ids vocab tokens) as [ids'| |]; try discriminate.
    intros [= <-]. simpl. rewrite (IH ids' eq_refl). reflexivity.
Qed.

Lemma length_list_ascii_of_string (s : string) :
  length (list_ascii_of_string s) = String.length s.
Proof. induction s as [|c s IH]; simpl; [reflexivity | rewrite IH; reflexivity]. Qed.

(** The iupac tokenizer returns two ids more than the text has
    characters: the start and the stop token. *)
Lemma iupac_encode_length (text : string) (ids : list Z) :
  iupac_encode text = Return ids -> length ids = (String.length text + 2)%nat.
Proof.
  intros Henc. apply convert_tokens_to_ids_length in Henc. rewrite Henc.
  unfold add_special_tokens, tokenize.
  rewrite !length_app, length_map, length_list_ascii_of_string. simpl. lia.
Qed.

(** ** Embedding *)

Section EmbeddingProperties.

Context {F : Type}.
Context {S : Type} `{Console S}.

(** The one-hot path on a sequence that the tokenizer encodes and that
    fits [max_len]: the padded ids, one-hot encoded, behind a batch
    dimension of one. *)
Lemma _embed_one_hot_returns (self : Transformer F) (max_len : Z) (seq : string)
    (toks : list Z) (s : S) :
  let padded := toks ++ repeat 0 (Z.to_nat (max_len - len seq)) in
  let c := Z.to_nat (max_list toks + 1) in
  encode (tape_tokenizer self) seq = Return toks ->
  len seq <= max_len ->
  Forall (fun x => 0 <= x) toks ->
  padded <> [] ->
  _embed_one_hot self max_len seq s =
    (Return (Tensor [1%nat; length padded; c] (flat_map (one_hot_row c) padded)), s).
Proof.
  intros padded c Henc Hlen Hpos Hne.
  unfold _embed_one_hot. run. rewrite Henc.
  rewrite np_pad_ok by lia. fold padded.
  rewrite one_hot_ok; unfold torch_tensor; simpl; rewrite ?app_nil_r.
  - replace (max_list padded) with (max_list toks)
      by (symmetry; apply max_list_padded).
    reflexivity.
  - assumption.
  - apply Forall_nonneg_padded. assumption.
Qed.

(** The TAPE path on a sequence that the tokenizer encodes and that fits
    [max_len]: the squeezed sequence output of the encoder on the padded
    ids. *)
Lemma _embed_tape_returns (self : Transformer F) (mdl : ProteinBertModel F)
    (max_len : Z) (seq : string) (toks : list Z)
    (seq_embedding pooled : tensor F) (s : S) :
  let padded := toks ++ repeat 0 (Z.to_nat (max_len - len seq)) in
  encode (tape_tokenizer self) seq = Return toks ->
  len seq <= max_len ->
  tape_model self = Some mdl ->
  forward mdl (torch_tensor [padded]) = Return (seq_embedding, pooled) ->
  _embed_tape self max_len seq s = (Return (squeeze seq_embedding), s).
Proof.
  intros padded Henc Hlen Hmdl Hfwd.
  unfold _embed_tape. run. rewrite Henc.
  rewrite np_pad_ok by lia. fold padded. rewrite Hmdl, Hfwd. reflexivity.
Qed.

(** C1 (as amended). For a sequence that fits [max_len] and that the
    tokenizer encodes to the ids [toks], [embed] returns a tensor whose
    sequence-position dimension is [length toks + (max_len - len seq)]:
    the second dimension, behind a batch dimension of one, in the one-hot
    path, and the leading dimension of the squeezed encoder output in the
    TAPE path. With a tokenizer that adds a start and a stop token this
    is [max_len + 2], not [max_len]. *)
Theorem embed_position_dimension (tok : Tokenizer) (mdl : ProteinBertModel F)
    (max_len : Z) (seq : string) (toks : list Z)
    (seq_embedding pooled : tensor F) (hidden : nat) (s : S) :
  let pad := Z.to_nat (max_len - len seq) in
  let n := (length toks + pad)%nat in
  encode tok seq = Return toks ->
  len seq <= max_len ->
  Forall (fun x => 0 <= x) toks ->
  (0 < n)%nat ->
  forward mdl (torch_tensor [toks ++ repeat 0 pad]) = Return (seq_embedding, pooled) ->
  shape seq_embedding = [1%nat; n; hidden] ->
  (exists t,
      embed (F := F) {| method := "one_hot"; tape_tokenizer := tok; tape_model := None |}
            max_len seq s = (Return (IntTensor t), s) /\
      shape t = [1%nat; n; Z.to_nat (max_list toks + 1)]) /\
  (exists t,
      embed {| method := "tape"; tape_tokenizer := tok; tape_model := Some mdl |}
            max_len seq s = (Return (FloatTensor t), s) /\
      shape t = filter (fun d => d <> 1%nat) [n; hidden] /\
      (n <> 1%nat -> hd O (shape t) = n)) /\
  (length toks = (String.length seq + 2)%nat -> Z.of_nat n = max_len + 2).
Proof.
  intros pad n Henc Hlen Hpos Hn Hfwd Hshape. repeat split.
  - eexists. split.
    + unfold embed. cbn [method String.eqb Ascii.eqb Bool.eqb].
      unfold bind at 1.
      erewrite (_embed_one_hot_returns _ max_len seq toks s);
        [reflexivity | exact Henc | exact Hlen | exact Hpos |].
      fold pad. intros Hnil. apply (f_equal length) in Hnil.
      rewrite length_app, repeat_length in Hnil. simpl in Hnil. lia.
    + cbn [shape]. rewrite length_app, repeat_length. reflexivity.
  - eexists. split; [|split].
    + unfold embed. cbn [method String.eqb Ascii.eqb Bool.eqb].
      unfold bind at 1.
      erewrite (_embed_tape_returns _ mdl max_len seq toks seq_embedding pooled s);
        [reflexivity | exact Henc | exact Hlen | reflexivity | exact Hfwd].
    + unfold squeeze. cbn [shape]. rewrite Hshape.
      rewrite filter_cons_False by (intros Hx; apply Hx; reflexivity). reflexivity.
    + intros Hn1. unfold squeeze. cbn [shape]. rewrite Hshape.
      rewrite filter_cons_False by (intros Hx; apply Hx; reflexivity).
      rewrite filter_cons_True by assumption. reflexivity.
  - intros Htoks. unfold n, pad, len in *. lia.
Qed.

(** C3 (as amended). On a sequence that fits [max_len] and that the
    tokenizer encodes to non-negative ids, the one-hot path returns a
    tensor of shape [1, positions, 1 + largest id], positions being the
    number of padded ids; the row of every position is a unit vector,
    its single 1 at the id of that position and 0 elsewhere. *)
Theorem one_hot_rows_are_unit_vectors (self : Transformer F) (max_len : Z)
    (seq : string) (toks : list Z) (s : S) :
  let padded := toks ++ repeat 0 (Z.to_nat (max_len - len seq)) in
  let c := Z.to_nat (max_list toks + 1) in
  encode (tape_tokenizer self) seq = Return toks ->
  len seq <= max_len ->
  Forall (fun x => 0 <= x) toks ->
  padded <> [] ->
  exists t,
    _embed_one_hot self max_len seq s = (Return t, s) /\
    shape t = [1%nat; length padded; c] /\
    forall (j : nat) (id : Z), padded !! j = Some id ->
      (exists k, (k < c)%nat /\ Z.of_nat k = id) /\
      forall k, (k < c)%nat ->
        get3 t 0 j k = Some (if Z.of_nat k =? id then 1 else 0).
Proof.
  intros padded c Henc Hlen Hpos Hne.
  eexists. split; [|split].
  - apply (_embed_one_hot_returns self max_len seq toks s Henc Hlen Hpos Hne).
  - reflexivity.
  - intros j id Hj. split.
    + assert (Hin : In id padded).
      { apply list_elem_of_In. apply list_elem_of_lookup. eauto. }
      assert (Hle : id <= max_list toks).
      { rewrite <- (max_list_padded toks (Z.to_nat (max_len - len seq))).
        apply max_list_ge. assumption. }
      assert (H0 : 0 <= id).
      { pose proof (Forall_nonneg_padded toks (Z.to_nat (max_len - len seq)) Hpos) as Hall.
        rewrite List.Forall_forall in Hall. apply Hall. assumption. }
      exists (Z.to_nat id). unfold c. split; lia.
    + intros k Hk. unfold get3. cbn [shape data].
      pose proof (lookup_lt_Some _ _ _ Hj) as Hjn.
      rewrite decide_True by (repeat split; [lia | assumption | assumption]).
      replace ((0 * length padded + j) * c + k)%nat with (j * c + k)%nat by lia.
      apply flat_one_hot_lookup; assumption.
Qed.

(** C4 (what the code does). A KeyError of the tokenizer is raised by the
    [encode] call, which stands before the [try] block of the one-hot
    path: it leaves [_embed_one_hot] and [embed] as an exception, nothing
    is printed and the process is not exited. *)
Theorem one_hot_tokenization_error_is_not_caught (self : Transformer F)
    (max_len : Z) (seq : string) (s : S) :
  encode (tape_tokenizer self) seq = Raised KeyError ->
  _embed_one_hot self max_len seq s = (Raised KeyError, s) /\
  (method self = "one_hot"%string -> embed self max_len seq s = (Raised KeyError, s)).
Proof.
  intros Henc.
  assert (Hone : _embed_one_hot self max_len seq s = (Raised KeyError, s)).
  { unfold _embed_one_hot. run. rewrite Henc. reflexivity. }
  split; [assumption|].
  intros Hm. unfold embed. rewrite Hm. cbn [String.eqb Ascii.eqb Bool.eqb].
  unfold bind at 1. rewrite Hone. reflexivity.
Qed.

(** C9. When padding raises a ValueError in the TAPE path, the handler
    prints the token count, the sequence length and the ids to standard
    output and returns normally; [token] was never bound, so the call of
    the encoder after the handler raises UnboundLocalError (on a
    transformer without encoder the attribute [tape_model], read first,
    is the one that fails, with AttributeError). The call does not exit
    the process and returns no tensor. *)
Theorem tape_padding_error_falls_through (self : Transformer F) (max_len : Z)
    (seq : string) (toks : list Z) (s : S) :
  encode (tape_tokenizer self) seq = Return toks ->
  np_pad toks (max_len - len seq) = Raised ValueError ->
  _embed_tape self max_len seq s =
    (Raised (match tape_model self with
             | Some _ => UnboundLocalError
             | None => AttributeError
             end),
     emit (Print Stdout (PArray toks))
       (emit (Print Stdout (PInt (len seq)))
          (emit (Print Stdout (PInt (Z.of_nat (length toks)))) s))).
Proof.
  intros Henc Hpad. unfold _embed_tape. run. rewrite Henc, Hpad. cbn.
  destruct (tape_model self); reflexivity.
Qed.

End EmbeddingProperties.

(** *** Evaluation on the script's transformers *)

(** The transformers that [Transformer('one_hot')] and
    [Transformer('tape')] build over the iupac tokenizer, and the fatal
    exit on another method name. *)
Example one_hot_transformer_built :
  Transformer__init__ (S := list event) (fun _ => TAPETokenizer_iupac)
    (fun _ => Demo.zero_encoder 768) "one_hot" [] =
    (Return Demo.one_hot_transformer, []).
Proof. reflexivity. Qed.

Example tape_transformer_built :
  Transformer__init__ (S := list event) (fun _ => TAPETokenizer_iupac)
    (fun _ => Demo.zero_encoder 768) "tape" [] =
    (Return Demo.tape_transformer, []).
Proof. reflexivity. Qed.

Example unknown_method_exits :
  Transformer__init__ (S := list event) (fun _ => TAPETokenizer_iupac)
    (fun _ => Demo.zero_encoder 768) "glove" [] =
    (Exited 1, [Print Stderr (PText "unimplemented transform method")]).
Proof. reflexivity. Qed.

Lemma embed_position_dimension_witness :
  (exists t,
      embed (S := list event) Demo.one_hot_transformer 3 "AC" [] =
        (Return (IntTensor t), []) /\
      shape t = [1; 5; 8]%nat) /\
  (exists t,
      embed (S := list event) Demo.tape_transformer 3 "AC" [] =
        (Return (FloatTensor t), []) /\
      shape t = [5; 768]%nat /\
      (5 <> 1 -> hd O (shape t) = 5)%nat) /\
  (length [2; 5; 7; 3] = (String.length "AC" + 2)%nat -> Z.of_nat 5 = 3 + 2).
Proof.
  apply (embed_position_dimension (F := Q) (S := list event)
           TAPETokenizer_iupac (Demo.zero_encoder 768) 3 "AC" [2; 5; 7; 3]
           (Tensor [1; 5; 768]%nat (repeat 0%Q (1 * 5 * 768)))
           (Tensor [1; 768]%nat (repeat 0%Q (1 * 768))) 768 []).
  - reflexivity.
  - unfold len. simpl. lia.
  - repeat constructor; lia.
  - simpl. lia.
  - reflexivity.
  - reflexivity.
Defined.

(** C1, refuted as stated: with [max_len = 3], the sequence "AC" is
    embedded with five positions (start token, two residues, stop token,
    one pad), and the leading dimension of the one-hot tensor is the
    batch dimension, 1. *)
Lemma embed_leading_dimension_counterexample :
  len "AC" <= 3 /\
  (exists t,
      embed (F := Q) (S := list event) Demo.one_hot_transformer 3 "AC" [] =
        (Return (IntTensor t), []) /\
      shape t = [1; 5; 8]%nat /\
      hd O (shape t) <> 3%nat /\ nth 1 (shape t) O <> 3%nat) /\
  (exists t,
      embed (S := list event) Demo.tape_transformer 3 "AC" [] =
        (Return (FloatTensor t), []) /\
      shape t = [5; 768]%nat /\
      hd O (shape t) <> 3%nat).
Proof.
  split; [unfold len; simpl; lia|]. split.
  - eexists. split; [vm_compute; reflexivity|]. cbn [shape hd nth].
    repeat split; lia.
  - eexists. split; [vm_compute; reflexivity|]. cbn [shape hd].
    repeat split; lia.
Qed.

Lemma one_hot_rows_are_unit_vectors_witness :
  exists t,
    _embed_one_hot (S := list event) Demo.one_hot_transformer 2 "AC" [] = (Return t, []) /\
    shape t = [1; 4; 8]%nat /\
    forall (j : nat) (id : Z), [2; 5; 7; 3] !! j = Some id ->
      (exists k, (k < 8)%nat /\ Z.of_nat k = id) /\
      forall k, (k < 8)%nat ->
        get3 t 0 j k = Some (if Z.of_nat k =? id then 1 else 0).
Proof.
  apply (one_hot_rows_are_unit_vectors (F := Q) (S := list event)
           Demo.one_hot_transformer 2 "AC" [2; 5; 7; 3] []).
  - reflexivity.
  - unfold len. simpl. lia.
  - repeat constructor; lia.
  - simpl. discriminate.
Defined.

(** C3, refuted as stated: for "AC" in a dataset whose longest sequence
    has two residues, the one-hot tensor has shape [1, 4, 8], not
    [max_length, vocabulary_size] = [2, 30]. *)
Lemma one_hot_shape_counterexample :
  length IUPAC_VOCAB = 30%nat /\
  exists t,
    _embed_one_hot (F := Q) (S := list event) Demo.one_hot_transformer 2 "AC" [] =
      (Return t, []) /\
    shape t = [1; 4; 8]%nat /\
    shape t <> [2; length IUPAC_VOCAB]%nat.
Proof.
  split; [reflexivity|].
  eexists. split; [vm_compute; reflexivity|]. split; [reflexivity|].
  cbn [shape]. discriminate.
Qed.

Lemma one_hot_tokenization_error_is_not_caught_witness :
  _embed_one_hot (F := Q) (S := list event) Demo.one_hot_transformer 5 "A*" [] =
    (Raised KeyError, []) /\
  (method Demo.one_hot_transformer = "one_hot"%string ->
   embed (S := list event) Demo.one_hot_transformer 5 "A*" [] = (Raised KeyError, [])).
Proof.
  apply (one_hot_tokenization_error_is_not_caught (F := Q) (S := list event)
           Demo.one_hot_transformer 5 "A*" []).
  reflexivity.
Defined.

Lemma tape_padding_error_falls_through_witness :
  _embed_tape (S := list event) Demo.tape_transformer 1 "AC" [] =
    (Raised UnboundLocalError,
     [Print Stdout (PInt 4); Print Stdout (PInt 2); Print Stdout (PArray [2; 5; 7; 3])]).
Proof.
  exact (tape_padding_error_falls_through (F := Q) (S := list event)
           Demo.tape_transformer 1 "AC" [2; 5; 7; 3] [] eq_refl eq_refl).
Defined.

(** ** Dataset *)

Lemma getitem_past_end {A} (l : list A) (idx : Z) :
  Z.of_nat (length l) <= idx -> getitem l idx = Raised IndexError.
Proof.
  intros Hge. unfold getitem.
  destruct (Z.ltb_spec idx 0) as [Hneg|_]; [lia|].
  destruct (Z.ltb_spec idx 0) as [Hneg|_]; [lia|].
  destruct (Z.leb_spec (Z.of_nat (length l)) idx) as [_|Hlt]; [reflexivity | lia].
Qed.

Lemma getitem_from_end {A} (l : list A) (idx : Z) :
  - Z.of_nat (length l) <= idx < 0 ->
  exists x, l !! Z.to_nat (Z.of_nat (length l) + idx) = Some x /\ getitem l idx = Return x.
Proof.
  intros [Hlo Hhi]. unfold getitem.
  destruct (Z.ltb_spec idx 0) as [_|Hge]; [|lia].
  destruct (Z.ltb_spec (idx + Z.of_nat (length l)) 0) as [Hneg|_]; [lia|].
  destruct (Z.leb_spec (Z.of_nat (length l)) (idx + Z.of_nat (length l))) as [Hle|_]; [lia|].
  cbn [orb]. replace (Z.of_nat (length l) + idx) with (idx + Z.of_nat (length l)) by lia.
  destruct (l !! Z.to_nat (idx + Z.of_nat (length l))) as [x|] eqn:Hx.
  - exists x. split; reflexivity.
  - apply lookup_ge_None in Hx. lia.
Qed.

Lemma for_each_invariant {S X A} (P : A -> Prop) (body : X -> A -> M S A) :
  (forall x a s a' s', P a -> body x a s = (Return a', s') -> P a') ->
  forall xs acc s r s', P acc -> for_each xs body acc s = (Return r, s') -> P r.
Proof.
  intros Hbody xs. induction xs as [|x xs IH]; intros acc s r s' Hacc Hrun; simpl in Hrun.
  - unfold ret in Hrun. injection Hrun as <- _. assumption.
  - unfold bind in Hrun. destruct (body x acc s) as [[a'| |] s1] eqn:Hb; try discriminate.
    apply (IH a' s1 r s'); [|assumption]. apply (Hbody x acc s a' s1); assumption.
Qed.

Lemma longest_of_bounds (rest : list string) (best : string) :
  len best <= len (longest_of best rest) /\
  Forall (fun s => len s <= len (longest_of best rest)) rest.
Proof.
  revert best. induction rest as [|s rest IH]; intros best; simpl.
  - split; [lia | constructor].
  - destruct (IH (if len best <? len s then s else best)) as [Hb Hrest].
    destruct (Z.ltb_spec (len best) (len s)) as [Hlt|Hge].
    + split; [lia|]. constructor; assumption.
    + split; [assumption|]. constructor; [lia | assumption].
Qed.

Section DatasetProperties.

Context {F : Type}.
Context {S : Type} `{Console S}.

(** A dataset that the constructor returns is well formed. *)
Lemma AlphpaSeqDataset__init___well_formed (fs : gmap string (list string))
    (np_float32 : string -> option F) (csv : string) (tr : Transformer F)
    (ds : AlphpaSeqDataset F) (s s' : S) :
  AlphpaSeqDataset__init__ fs np_float32 csv tr s = (Return ds, s') ->
  well_formed ds.
Proof.
  unfold AlphpaSeqDataset__init__, _load_csv. run.
  destruct (fs !! csv) as [[|header lines]|]; simpl; try discriminate.
  destruct (for_each lines (load_line np_float32) ([], [], []) s)
    as [[[[ls qs] ks]| |] s1] eqn:Hloop; simpl; try discriminate.
  - intros Hret.
    assert (Hinv : length qs = length ls /\ length ks = length ls).
    { refine (for_each_invariant
                (fun acc : list string * list string * list F =>
                   length (snd (fst acc)) = length (fst (fst acc)) /\
                   length (snd acc) = length (fst (fst acc)))
                (load_line np_float32) _ lines ([], [], []) s (ls, qs, ks) s1 _ Hloop);
        [|simpl; split; reflexivity].
      intros x [[l q] k] s0 [[l' q'] k'] s0' [Hq Hk]. simpl in Hq, Hk.
      unfold load_line. run.
      destruct (getitem (split_on "," x) 0); try discriminate.
      destruct (getitem (split_on "," x) 1); try discriminate.
      destruct (getitem (split_on "," x) 14) as [c14| |]; try discriminate.
      destruct (np_float32 c14); try discriminate.
      intros [= <- <- <- _]. simpl. rewrite !length_app. simpl. lia. }
    destruct qs as [|q qs]; simpl in Hret; [discriminate|].
    injection Hret as <- _. unfold well_formed. simpl.
    destruct Hinv as [Hq Hk]. repeat split; try assumption.
    destruct (longest_of_bounds qs q) as [Hb Hrest]. constructor; assumption.
  - destruct (exn_eqb e FileNotFoundError); discriminate.
Qed.

(** C5. On a loaded dataset, an index at or past the dataset length
    exits the process with status 1, after one line on the error stream
    that gives the index and the dataset length. *)
Theorem getitem_out_of_range_exits (self : AlphpaSeqDataset F) (idx : Z) (s : S) :
  well_formed self ->
  __len__ self <= idx ->
  __getitem__ self idx s =
    (Exited 1,
     emit (Print Stderr
             (PText ("List index out of range: " +:+ str idx +:+
                     ", length: " +:+ str (__len__ self) +:+ "."))) s).
Proof.
  intros [Hseqs _] Hidx.
  unfold __getitem__, __len__ in *. run.
  rewrite getitem_past_end by (rewrite Hseqs; assumption).
  reflexivity.
Qed.

(** C10 (as amended). On a loaded dataset, a negative index no smaller
    than minus the dataset length raises no IndexError in the three list
    lookups: they select the sample at position [len + idx]. What
    [__getitem__] then does is decided by the embedding of that sample's
    sequence: it returns the identifier, the features and the target
    when the embedding returns features; it prints the 'List index out
    of range' diagnostic and exits with status 1 when the embedding
    raises IndexError; another exception or an exit of the embedding
    leaves it as it is. *)
Theorem getitem_negative_index_selects_from_end (self : AlphpaSeqDataset F) (idx : Z)
    (s : S) :
  well_formed self ->
  - __len__ self <= idx < 0 ->
  let pos := Z.to_nat (__len__ self + idx) in
  exists label seq target,
    labels self !! pos = Some label /\
    seqs self !! pos = Some seq /\
    log10_ka self !! pos = Some target /\
    __getitem__ self idx s =
      match embed (transformer self) (_longest_seq self) seq s with
      | (Return features, s') => (Return (label, features, target), s')
      | (Raised IndexError, s') =>
          (Exited 1,
           emit (Print Stderr
                   (PText ("List index out of range: " +:+ str idx +:+
                           ", length: " +:+ str (__len__ self) +:+ "."))) s')
      | (Raised e, s') => (Raised e, s')
      | (Exited status, s') => (Exited status, s')
      end.
Proof.
  intros [Hseqs [Hka _]] Hidx pos. unfold __len__ in *.
  destruct (getitem_from_end (labels self) idx Hidx) as [label [Hl Hgl]].
  destruct (getitem_from_end (seqs self) idx) as [seq [Hs Hgs]]; [rewrite Hseqs; assumption|].
  destruct (getitem_from_end (log10_ka self) idx) as [target [Hk Hgk]]; [rewrite Hka; assumption|].
  rewrite Hseqs in Hs. rewrite Hka in Hk.
  exists label, seq, target. repeat split; try assumption.
  unfold __getitem__. run. rewrite Hgs.
  destruct (embed (transformer self) (_longest_seq self) seq s) as [[f|e|c] s1].
  - rewrite Hgl, Hgk. reflexivity.
  - destruct e; reflexivity.
  - reflexivity.
Qed.

End DatasetProperties.

Example demo_dataset_loaded :
  AlphpaSeqDataset__init__ (S := list event) Demo.demo_fs Demo.demo_float32
    "test_reg.csv" Demo.one_hot_transformer [] = (Return Demo.demo_dataset, []).
Proof. reflexivity. Qed.

Lemma demo_dataset_well_formed : well_formed Demo.demo_dataset.
Proof.
  apply (AlphpaSeqDataset__init___well_formed (S := list event) _ _ _ _ _ [] []
           demo_dataset_loaded).
Qed.

Lemma getitem_out_of_range_exits_witness :
  __getitem__ (S := list event) Demo.demo_dataset 10 [] =
    (Exited 1, [Print Stderr (PText "List index out of range: 10, length: 4.")]).
Proof.
  exact (getitem_out_of_range_exits (S := list event) Demo.demo_dataset 10 []
           demo_dataset_well_formed ltac:(unfold __len__; simpl; lia)).
Defined.

Lemma getitem_negative_index_selects_from_end_witness :
  exists label seq target,
    labels Demo.demo_dataset !! 3%nat = Some label /\
    seqs Demo.demo_dataset !! 3%nat = Some seq /\
    log10_ka Demo.demo_dataset !! 3%nat = Some target /\
    __getitem__ (S := list event) Demo.demo_dataset (-1) [] =
      match embed (transformer Demo.demo_dataset) (_longest_seq Demo.demo_dataset) seq []
      with
      | (Return features, s') => (Return (label, features, target), s')
      | (Raised IndexError, s') =>
          (Exited 1,
           emit (Print Stderr
                   (PText ("List index out of range: " +:+ str (-1) +:+
                           ", length: " +:+ str (__len__ Demo.demo_dataset) +:+ "."))) s')
      | (Raised e, s') => (Raised e, s')
      | (Exited status, s') => (Exited status, s')
      end.
Proof.
  exact (getitem_negative_index_selects_from_end (S := list event) Demo.demo_dataset
           (-1) [] demo_dataset_well_formed ltac:(unfold __len__; simpl; lia)).
Defined.

(** C10, refuted as stated: index -1 is within [-len, 0) on both
    datasets, yet on the dataset whose encoder has six positions the
    IndexError of embedding the eight positions of "ACDEFG" makes
    [__getitem__] print the diagnostic and exit with status 1, and on
    the dataset whose last sequence holds a character outside the
    vocabulary the KeyError of the tokenizer leaves [__getitem__]
    uncaught; in neither case is the sample returned. *)
Lemma getitem_negative_index_counterexample :
  (well_formed DemoMore.short_dataset /\
   - __len__ DemoMore.short_dataset <= -1 < 0 /\
   __getitem__ (S := list event) DemoMore.short_dataset (-1) [] =
     (Exited 1, [Print Stderr (PText "List index out of range: -1, length: 4.")])) /\
  (well_formed DemoEdge.starred_dataset /\
   - __len__ DemoEdge.starred_dataset <= -1 < 0 /\
   __getitem__ (S := list event) DemoEdge.starred_dataset (-1) [] =
     (Raised KeyError, [])).
Proof.
  split.
  - split; [|split].
    + unfold well_formed. simpl.
      repeat split; repeat constructor; unfold len; simpl; lia.
    + unfold __len__. simpl. lia.
    + vm_compute. reflexivity.
  - split; [|split].
    + unfold well_formed. simpl.
      repeat split; repeat constructor; unfold len; simpl; lia.
    + unfold __len__. simpl. lia.
    + vm_compute. reflexivity.
Qed.

(** The last sample of the scenario dataset, reached by index -1. *)
Example demo_getitem_last :
  exists f,
    __getitem__ (S := list event) Demo.demo_dataset (-1) [] =
      (Return ("s3"%string, f, 3%Q), []) /\
    features_shape f = [1; 8; 12]%nat.
Proof. eexists. split; [vm_compute; reflexivity | reflexivity]. Qed.

(** ** Training loop *)


Section TrainingProperties.

Context `{Framework}.

Lemma range_length (lo hi : Z) : length (range lo hi) = Z.to_nat (hi - lo).
Proof. unfold range. rewrite length_map, length_seq. reflexivity. Qed.

Lemma range_lookup (lo hi : Z) (i : nat) :
  (i < Z.to_nat (hi - lo))%nat -> range lo hi !! i = Some (lo + Z.of_nat i).
Proof.
  intros Hi. unfold range. rewrite list_lookup_fmap, lookup_seq_lt by assumption.
  reflexivity.
Qed.



(** Lines 234-235 under a bound, positive [BATCH_SIZE], on datasets
    that have samples. *)
Lemma epoch_loaders_global (train_set test_set : Dataset) (batch_arg b : Z) (w : world) :
  globals w !! "BATCH_SIZE"%string = Some b ->
  0 < b ->
  0 < dataset_len train_set ->
  0 < dataset_len test_set ->
  epoch_loaders train_set test_set batch_arg w =
    (Return ({| dataset := train_set; batch_size := b; shuffle := true |},
             {| dataset := test_set; batch_size := b; shuffle := true |}), w).
Proof.
  intros Hg Hb Hntr Hnte.
  assert (Hle : (b <=? 0) = false) by (apply Z.leb_gt; lia).
  assert (Hltr : (dataset_len train_set <=? 0) = false) by (apply Z.leb_gt; lia).
  assert (Hlte : (dataset_len test_set <=? 0) = false) by (apply Z.leb_gt; lia).
  unfold epoch_loaders, load_global, DataLoader. run.
  rewrite Hg, Hltr, Hle. cbn. rewrite Hg, Hlte, Hle. reflexivity.
Qed.

(** C2 (what the code does). The two loaders of an epoch take their
    batch size from the module-level name [BATCH_SIZE] (here on datasets
    that have samples, on which the loaders can be built); the
    [batch_size] argument of [run_lstm] is not read, and two calls that
    differ only in it run alike. *)
Theorem epoch_loaders_use_global_batch_size (train_set test_set : Dataset)
    (batch_arg batch_arg' b n_epochs : Z) (device save_as : string) (w : world) :
  globals w !! "BATCH_SIZE"%string = Some b ->
  0 < b ->
  0 < dataset_len train_set ->
  0 < dataset_len test_set ->
  epoch_loaders train_set test_set batch_arg w =
    (Return ({| dataset := train_set; batch_size := b; shuffle := true |},
             {| dataset := test_set; batch_size := b; shuffle := true |}), w) /\
  run_lstm train_set test_set n_epochs batch_arg device save_as w =
    run_lstm train_set test_set n_epochs batch_arg' device save_as w.
Proof.
  intros Hg Hb Hntr Hnte. split.
  - apply epoch_loaders_global; assumption.
  - reflexivity.
Qed.

Lemma test_batches_keep_state (bs : list Batch) (test_loss : Float) (w : world) :
  exists test_loss', for_each bs test_batch test_loss w = (Return test_loss', w).
Proof.
  revert test_loss. induction bs as [|b bs IH]; intros test_loss; simpl.
  - eexists. reflexivity.
  - unfold bind, test_batch at 1. apply IH.
Qed.

(** The test pass changes nothing in the state but the random state
    that the shuffle of its loader draws from. *)
Lemma test_pass_preserves_world (test_loader : Loader) (test_loss : Float)
    (w : world) :
  exists test_loss' w',
    test_pass test_loader test_loss w = (Return test_loss', w') /\
    console w' = console w /\ files w' = files w /\ writes w' = writes w /\
    globals w' = globals w /\ params w' = params w /\ grads w' = grads w /\
    opt_state w' = opt_state w.
Proof.
  unfold test_pass, batches, bind.
  destruct (iterate (dataset test_loader) (batch_size test_loader)
              (shuffle test_loader) (rng w)) as [bs r].
  match goal with
  | |- context [for_each bs test_batch test_loss ?w1] =>
      destruct (test_batches_keep_state bs test_loss w1) as [loss' Hrun];
      exists loss', w1; rewrite Hrun
  end.
  repeat split; reflexivity.
Qed.

(** C6. The test pass of an epoch returns the accumulated loss and
    leaves the model's parameters, their gradients and the optimizer's
    state as they were. *)
Theorem test_pass_preserves_parameters (test_loader : Loader) (test_loss : Float)
    (w : world) :
  exists test_loss' w',
    test_pass test_loader test_loss w = (Return test_loss', w') /\
    params w' = params w /\
    grads w' = grads w /\
    opt_state w' = opt_state w.
Proof.
  destruct (test_pass_preserves_world test_loader test_loss w)
    as [l [w' [Hrun [_ [_ [_ [_ [Hp [Hg Ho]]]]]]]]].
  exists l, w'. repeat split; assumption.
Qed.





(** ** Loss report *)

(** The table that [to_csv] writes for the frame of [plot_history]. *)
Lemma to_csv_history (rows : list (Float * Float)) (f g : Float -> Float) :
  to_csv {| index := range 0 (Z.of_nat (length rows));
            columns := [("training"%string, map f (map fst rows));
                        ("testing"%string, map g (map snd rows))] |} =
    [CText ""; CText "training"; CText "testing"] ::
    imap (fun i r => [CInt (Z.of_nat i); CFloat (f (fst r)); CFloat (g (snd r))]) rows.
Proof.
  unfold to_csv. cbn [columns index map fst]. f_equal.
  apply list_eq. intros i. rewrite !list_lookup_imap.
  destruct (rows !! i) as [r|] eqn:Hr.
  - pose proof (lookup_lt_Some _ _ _ Hr) as Hi.
    rewrite range_lookup by lia. cbn [fmap option_fmap option_map omap list_omap snd].
    rewrite !list_lookup_fmap, Hr. cbn. reflexivity.
  - apply lookup_ge_None in Hr.
    rewrite (proj2 (lookup_ge_None _ _)) by (rewrite range_length; lia).
    reflexivity.
Qed.

(** C8 (as amended). For loss histories of one length [n], the table
    written to [save_as + '.csv'] has a header of three cells (an empty
    one for the index, then training and testing) and [n] rows, row [i]
    holding the index [i], [train_losses[i] / n_train] and
    [test_losses[i] / n_test]. *)
Theorem plot_history_csv (train_losses : list Float) (n_train : Z)
    (test_losses : list Float) (n_test : Z) (save_as : string) (w : world) :
  length train_losses = length test_losses ->
  exists w' table,
    plot_history train_losses n_train test_losses n_test save_as w = (Return tt, w') /\
    files w' !! (save_as +:+ ".csv") = Some (Csv table) /\
    table =
      [CText ""; CText "training"; CText "testing"] ::
      imap (fun i r => [CInt (Z.of_nat i);
                        CFloat (fdiv_int (fst r) n_train);
                        CFloat (fdiv_int (snd r) n_test)])
           (combine train_losses test_losses) /\
    length table = Datatypes.S (length train_losses).
Proof.
  intros Hlen. unfold plot_history, scatter. run. unfold write_file.
  eexists. eexists. split; [reflexivity|]. cbn [files].
  split; [apply lookup_insert_eq|].
  split.
  - apply to_csv_history.
  - rewrite to_csv_history. cbn [length]. rewrite length_imap, length_combine. lia.
Qed.

End TrainingProperties.

(** *** Evaluation on the small framework instance *)

(** The call of the script with another batch size, 8, while the module
    holds [BATCH_SIZE = 32]: the loaders are built with 32. *)
Lemma epoch_loaders_use_global_batch_size_witness :
  @epoch_loaders Demo.toy [1; 2; 3; 4; 5] [2; 3] 8 Demo.script_world =
    (Return (@Build_Loader Demo.toy [1; 2; 3; 4; 5] 32 true,
             @Build_Loader Demo.toy [2; 3] 32 true), Demo.script_world) /\
  @run_lstm Demo.toy [1; 2; 3; 4; 5] [2; 3] 1 8 "cpu" "out" Demo.script_world =
    @run_lstm Demo.toy [1; 2; 3; 4; 5] [2; 3] 1 32 "cpu" "out" Demo.script_world.
Proof.
  apply (@epoch_loaders_use_global_batch_size Demo.toy
           [1; 2; 3; 4; 5] [2; 3] 8 32 32 1 "cpu" "out" Demo.script_world).
  - reflexivity.
  - lia.
  - reflexivity.
  - reflexivity.
Defined.


(** The two checkpoints of a two-epoch run of the small instance. *)
Example demo_run_writes :
  writes (snd (@run_lstm Demo.toy [1; 2; 3; 4; 5] [2; 3] 2 32 "cpu" "out"
                 Demo.script_world)) =
    [("out.model_save"%string, @Checkpoint Demo.toy 1 30 1%nat);
     ("out.model_save"%string, @Checkpoint Demo.toy 2 (-240) 2%nat)].
Proof. vm_compute. reflexivity. Qed.

Lemma plot_history_csv_witness :
  exists w' table,
    @plot_history Demo.toy [4; 6]%Q 2 [2; 3]%Q 1 "out" Demo.script_world = (Return tt, w') /\
    files w' !! ("out" +:+ ".csv") = Some (Csv table) /\
    table =
      [CText ""; CText "training"; CText "testing"] ::
      imap (fun i r => [CInt (Z.of_nat i);
                        @CFloat Demo.toy (@fdiv_int Demo.toy (fst r) 2);
                        @CFloat Demo.toy (@fdiv_int Demo.toy (snd r) 1)])
           (combine [4; 6]%Q [2; 3]%Q) /\
    length table = 3%nat.
Proof.
  apply (@plot_history_csv Demo.toy [4; 6]%Q 2 [2; 3]%Q 1 "out" Demo.script_world).
  reflexivity.
Defined.

(** C8, refuted as stated: for two epochs with summed losses 4, 6
    (training, 2 samples) and 2, 3 (testing, 1 sample) the written table
    has three columns, the first one the unnamed index. *)
Lemma plot_history_csv_counterexample :
  fst (@plot_history Demo.toy [4; 6]%Q 2 [2; 3]%Q 1 "out" Demo.script_world) = Return tt /\
  files (snd (@plot_history Demo.toy [4; 6]%Q 2 [2; 3]%Q 1 "out" Demo.script_world))
    !! "out.csv"%string =
    Some (Csv [ [CText ""; CText "training"; CText "testing"];
                [CInt 0; @CFloat Demo.toy 2%Q; @CFloat Demo.toy 2%Q];
                [CInt 1; @CFloat Demo.toy 3%Q; @CFloat Demo.toy 3%Q] ]) /\
  length [@CText Demo.toy ""; CText "training"; CText "testing"] <> 2%nat.
Proof.
  split; [vm_compute; reflexivity|]. split; [vm_compute; reflexivity|].
  simpl. lia.
Qed.

(** * Further properties *)

(** ** Loading the dataset *)

Lemma getitem_nat {A} (l : list A) (k : nat) :
  getitem l (Z.of_nat k) =
    match l !! k with Some x => Return x | None => Raised IndexError end.
Proof.
  unfold getitem.
  destruct (Z.ltb_spec (Z.of_nat k) 0) as [Hneg|_]; [lia|].
  destruct (Z.ltb_spec (Z.of_nat k) 0) as [Hneg|_]; [lia|].
  rewrite Nat2Z.id. cbn [orb].
  destruct (Z.leb_spec (Z.of_nat (length l)) (Z.of_nat k)) as [Hge|Hlt].
  - rewrite (proj2 (lookup_ge_None l k)) by lia. reflexivity.
  - reflexivity.
Qed.

Lemma split_on_nonempty (sep : ascii) (s : string) : split_on sep s <> [].
Proof.
  destruct s as [|c s]; simpl; [discriminate|].
  destruct (Ascii.eqb c sep); [discriminate|].
  destruct (split_on sep s); discriminate.
Qed.

Section LoadProperties.

Context {F : Type}.
Context {S : Type} `{Console S}.

(** One turn of the loading loop, by cases on the line. *)
Lemma load_line_cases (np_float32 : string -> option F) (line : string)
    (l q : list string) (k : list F) (s : S) :
  load_line np_float32 line (l, q, k) s =
    (if decide (15 <= length (split_on "," line))%nat then
       match np_float32 (column 14 line) with
       | Some x => Return (l ++ [column 0 line], q ++ [column 1 line], k ++ [x])
       | None => Raised ValueError
       end
     else Raised IndexError, s).
Proof.
  unfold load_line, column. run.
  change 0 with (Z.of_nat 0). change 1 with (Z.of_nat 1). change 14 with (Z.of_nat 14).
  rewrite !getitem_nat.
  destruct (decide (15 <= length (split_on "," line))%nat) as [Hlen|Hlen].
  - destruct (split_on "," line !! 0%nat) as [c0|] eqn:H0;
      [|apply lookup_ge_None in H0; lia].
    destruct (split_on "," line !! 1%nat) as [c1|] eqn:H1;
      [|apply lookup_ge_None in H1; lia].
    destruct (split_on "," line !! 14%nat) as [c14|] eqn:H14;
      [|apply lookup_ge_None in H14; lia].
    rewrite (nth_lookup_Some _ _ _ _ H0), (nth_lookup_Some _ _ _ _ H1),
      (nth_lookup_Some _ _ _ _ H14).
    destruct (np_float32 c14); reflexivity.
  - destruct (split_on "," line !! 0%nat) as [c0|] eqn:H0;
      [|pose proof (split_on_nonempty "," line) as Hne;
        apply lookup_ge_None in H0; destruct (split_on "," line);
        [congruence | simpl in H0; lia]].
    destruct (split_on "," line !! 1%nat) as [c1|] eqn:H1; [|reflexivity].
    destruct (split_on "," line !! 14%nat) as [c14|] eqn:H14; [|reflexivity].
    apply lookup_lt_Some in H14. lia.
Qed.

(** The loading loop over lines that are all loadable. *)
Lemma load_lines_complete (np_float32 : string -> option F) (lines : list string) :
  Forall (loadable np_float32) lines ->
  forall (l q : list string) (k : list F) (s : S),
  exists xs,
    for_each lines (load_line np_float32) (l, q, k) s =
      (Return (l ++ map (column 0) lines, q ++ map (column 1) lines, k ++ xs), s) /\
    Forall2 (fun line x => np_float32 (column 14 line) = Some x) lines xs.
Proof.
  induction 1 as [|line lines [Hlen [x Hx]] _ IH]; intros l q k s.
  - exists []. simpl. rewrite !app_nil_r. split; [reflexivity | constructor].
  - cbn [for_each]. unfold bind. rewrite load_line_cases.
    rewrite decide_True by assumption. rewrite Hx.
    destruct (IH (l ++ [column 0 line]) (q ++ [column 1 line]) (k ++ [x]) s)
      as [xs [Hrun Hxs]].
    exists (x :: xs). rewrite Hrun, <- !app_assoc. simpl.
    split; [reflexivity | constructor; assumption].
Qed.

(** The loading loop, read back from its result. *)
Lemma load_lines_sound (np_float32 : string -> option F) (lines : list string) :
  forall (l q : list string) (k : list F) (s : S) l' q' k' s',
  for_each lines (load_line np_float32) (l, q, k) s = (Return (l', q', k'), s') ->
  s' = s /\ Forall (loadable np_float32) lines /\
  l' = l ++ map (column 0) lines /\ q' = q ++ map (column 1) lines /\
  exists xs, k' = k ++ xs /\
    Forall2 (fun line x => np_float32 (column 14 line) = Some x) lines xs.
Proof.
  induction lines as [|line lines IH]; intros l q k s l' q' k' s' Hrun.
  - simpl in Hrun. unfold ret in Hrun. injection Hrun as <- <- <- <-.
    rewrite !app_nil_r. repeat split; try constructor.
    exists []. rewrite app_nil_r. split; [reflexivity | constructor].
  - cbn [for_each] in Hrun. unfold bind in Hrun. rewrite load_line_cases in Hrun.
    destruct (decide (15 <= length (split_on "," line))%nat) as [Hlen|Hlen];
      [|discriminate].
    destruct (np_float32 (column 14 line)) as [x|] eqn:Hx; [|discriminate].
    destruct (IH _ _ _ _ _ _ _ _ Hrun) as [-> [Hall [-> [-> [xs [-> Hxs]]]]]].
    rewrite <- !app_assoc. simpl.
    repeat split; try reflexivity.
    + constructor; [|assumption]. split; [assumption | rewrite Hx; eexists; reflexivity].
    + exists (x :: xs). split; [reflexivity | constructor; assumption].
Qed.

(** The loading loop never exits and prints nothing. *)
Lemma load_lines_quiet (np_float32 : string -> option F) (lines : list string) :
  forall (acc : list string * list string * list F) (s : S) r s',
  for_each lines (load_line np_float32) acc s = (r, s') ->
  s' = s /\
  match r with
  | Return _ => True
  | Raised e => e = IndexError \/ e = ValueError
  | Exited _ => False
  end.
Proof.
  induction lines as [|line lines IH]; intros [[l q] k] s r s' Hrun.
  - simpl in Hrun. unfold ret in Hrun. injection Hrun as <- <-. split; [reflexivity | exact I].
  - cbn [for_each] in Hrun. unfold bind in Hrun. rewrite load_line_cases in Hrun.
    destruct (decide (15 <= length (split_on "," line))%nat) as [Hlen|Hlen].
    + destruct (np_float32 (column 14 line)) as [x|].
      * apply (IH _ _ _ _ Hrun).
      * injection Hrun as <- <-. split; [reflexivity | right; reflexivity].
    + injection Hrun as <- <-. split; [reflexivity | left; reflexivity].
Qed.

Lemma longest_of_attained (rest : list string) (best : string) :
  longest_of best rest ∈ best :: rest.
Proof.
  revert best. induction rest as [|s rest IH]; intros best; simpl.
  - apply list_elem_of_here.
  - specialize (IH (if len best <? len s then s else best)).
    destruct (len best <? len s).
    + apply list_elem_of_further. assumption.
    + apply elem_of_cons in IH as [->|Hin].
      * apply list_elem_of_here.
      * apply list_elem_of_further, list_elem_of_further. assumption.
Qed.

End LoadProperties.

Section LoadTheorems.

Context {F : Type}.
Context {S : Type} `{Console S}.

(** X1. A dataset that the constructor returns was read from an existing
    file with a header and at least one data line; it has one sample per
    data line, in order: identifier, sequence and target are fields 0, 1
    and 14 of the line; [_longest_seq] is the length of one of the
    sequences; and loading printed nothing. *)
Theorem dataset_load_returns_rows (fs : gmap string (list string))
    (np_float32 : string -> option F) (csv : string) (tr : Transformer F)
    (ds : AlphpaSeqDataset F) (s s' : S) :
  AlphpaSeqDataset__init__ fs np_float32 csv tr s = (Return ds, s') ->
  s' = s /\
  exists header lines,
    fs !! csv = Some (header :: lines) /\
    lines <> [] /\
    __len__ ds = Z.of_nat (length lines) /\
    Forall (loadable np_float32) lines /\
    labels ds = map (column 0) lines /\
    seqs ds = map (column 1) lines /\
    Forall2 (fun line x => np_float32 (column 14 line) = Some x) lines (log10_ka ds) /\
    (exists q, q ∈ seqs ds /\ _longest_seq ds = len q) /\
    transformer ds = tr /\ csv_file ds = csv.
Proof.
  unfold AlphpaSeqDataset__init__, _load_csv. run.
  destruct (fs !! csv) as [[|header lines]|] eqn:Hfs; simpl; try discriminate.
  destruct (for_each lines (load_line np_float32) ([], [], []) s)
    as [[[[ls qs] ks]| |] s1] eqn:Hloop; simpl; try discriminate.
  - destruct (load_lines_sound _ _ _ _ _ _ _ _ _ _ Hloop)
      as [-> [Hall [-> [-> [xs [-> Hxs]]]]]].
    simpl. destruct (map (column 1) lines) as [|q qs] eqn:Hq; simpl; [discriminate|].
    intros [= <- <-]. split; [reflexivity|].
    exists header, lines. unfold __len__. cbn.
    rewrite length_map. repeat split; try assumption; try reflexivity.
    + intros ->. discriminate.
    + symmetry. exact Hq.
    + exists (longest_of q qs). split; [apply longest_of_attained | reflexivity].
  - destruct (exn_eqb e FileNotFoundError); discriminate.
Qed.

(** X2. On an existing file with a header and at least one data line,
    all data lines loadable, the constructor returns a dataset with one
    sample per data line and prints nothing. *)
Theorem dataset_load_total_on_loadable_rows (fs : gmap string (list string))
    (np_float32 : string -> option F) (csv : string) (tr : Transformer F)
    (header : string) (lines : list string) (s : S) :
  fs !! csv = Some (header :: lines) ->
  lines <> [] ->
  Forall (loadable np_float32) lines ->
  exists ds,
    AlphpaSeqDataset__init__ fs np_float32 csv tr s = (Return ds, s) /\
    __len__ ds = Z.of_nat (length lines) /\
    labels ds = map (column 0) lines /\
    seqs ds = map (column 1) lines /\
    well_formed ds.
Proof.
  intros Hfs Hne Hall.
  destruct (load_lines_complete np_float32 lines Hall [] [] [] s) as [xs [Hrun Hxs]].
  simpl in Hrun.
  assert (Hinit : exists ds,
             AlphpaSeqDataset__init__ fs np_float32 csv tr s = (Return ds, s) /\
             labels ds = map (column 0) lines /\ seqs ds = map (column 1) lines).
  { unfold AlphpaSeqDataset__init__, _load_csv. run. rewrite Hfs, Hrun. simpl.
    destruct lines as [|line lines]; [congruence|]. simpl.
    eexists. split; [reflexivity|]. split; reflexivity. }
  destruct Hinit as [ds [Hinit [Hl Hq]]].
  exists ds. split; [exact Hinit|].
  split; [unfold __len__; rewrite Hl, length_map; reflexivity|].
  split; [exact Hl|]. split; [exact Hq|].
  apply (AlphpaSeqDataset__init___well_formed _ _ _ _ _ _ _ Hinit).
Qed.

(** X3. When the file does not exist, the constructor prints
    'File not found error: <path>.' on the error stream and exits the
    process with status 1. *)
Theorem dataset_load_missing_file_exits (fs : gmap string (list string))
    (np_float32 : string -> option F) (csv : string) (tr : Transformer F) (s : S) :
  fs !! csv = None ->
  AlphpaSeqDataset__init__ fs np_float32 csv tr s =
    (Exited 1,
     emit (Print Stderr (PText ("File not found error: " +:+ csv +:+ "."))) s).
Proof.
  intros Hfs. unfold AlphpaSeqDataset__init__, _load_csv. run. rewrite Hfs.
  reflexivity.
Qed.

(** X4. A file without data lines gives no dataset: an empty file raises
    StopIteration (the header cannot be skipped), a file with only its
    header raises ValueError (the longest of no sequences); neither is
    caught, and nothing is printed. *)
Theorem dataset_load_without_rows_raises (fs : gmap string (list string))
    (np_float32 : string -> option F) (csv : string) (tr : Transformer F)
    (content : list string) (s : S) :
  fs !! csv = Some content ->
  (length content <= 1)%nat ->
  AlphpaSeqDataset__init__ fs np_float32 csv tr s =
    (Raised (match content with [] => StopIteration | _ => ValueError end), s).
Proof.
  intros Hfs Hlen. unfold AlphpaSeqDataset__init__, _load_csv. run. rewrite Hfs.
  destruct content as [|header [|line lines]]; [reflexivity | reflexivity |].
  simpl in Hlen. lia.
Qed.

(** X5. When the file exists, the constructor never exits the process
    and prints nothing, whatever the lines are: it returns or raises
    StopIteration, IndexError (a line of fewer than fifteen fields) or
    ValueError (a target that is no numeral, or no data line). *)
Theorem dataset_load_existing_file_never_exits (fs : gmap string (list string))
    (np_float32 : string -> option F) (csv : string) (tr : Transformer F)
    (content : list string) (s s' : S) (r : outcome (AlphpaSeqDataset F)) :
  fs !! csv = Some content ->
  AlphpaSeqDataset__init__ fs np_float32 csv tr s = (r, s') ->
  s' = s /\
  match r with
  | Return _ => True
  | Raised e => e = StopIteration \/ e = IndexError \/ e = ValueError
  | Exited _ => False
  end.
Proof.
  intros Hfs. unfold AlphpaSeqDataset__init__, _load_csv. run. rewrite Hfs.
  destruct content as [|header lines]; simpl.
  - intros [= <- <-]. split; [reflexivity | left; reflexivity].
  - destruct (for_each lines (load_line np_float32) ([], [], []) s)
      as [r1 s1] eqn:Hloop.
    destruct (load_lines_quiet _ _ _ _ _ _ Hloop) as [-> Hr1].
    destruct r1 as [[[ls qs] ks]|e|c]; simpl.
    + destruct qs as [|q qs]; simpl; intros [= <- <-].
      * split; [reflexivity | right; right; reflexivity].
      * split; [reflexivity | exact I].
    + destruct Hr1 as [->| ->]; simpl; intros [= <- <-];
        (split; [reflexivity | tauto]).
    + contradiction.
Qed.

End LoadTheorems.

Lemma dataset_load_total_on_loadable_rows_witness :
  exists ds,
    AlphpaSeqDataset__init__ (S := list event) Demo.demo_fs Demo.demo_float32
      "test_reg.csv" Demo.one_hot_transformer [] = (Return ds, []) /\
    __len__ ds = Z.of_nat (length (tl Demo.demo_csv)) /\
    labels ds = map (column 0) (tl Demo.demo_csv) /\
    seqs ds = map (column 1) (tl Demo.demo_csv) /\
    well_formed ds.
Proof.
  apply (dataset_load_total_on_loadable_rows (S := list event) Demo.demo_fs
           Demo.demo_float32 "test_reg.csv" Demo.one_hot_transformer
           (hd ""%string Demo.demo_csv) (tl Demo.demo_csv) []).
  - reflexivity.
  - discriminate.
  - repeat constructor; try (vm_compute; lia); eexists; reflexivity.
Defined.

Lemma dataset_load_returns_rows_witness :
  [] = ([] : list event) /\
  exists header lines,
    Demo.demo_fs !! "test_reg.csv"%string = Some (header :: lines) /\
    lines <> [] /\
    __len__ Demo.demo_dataset = Z.of_nat (length lines) /\
    Forall (loadable Demo.demo_float32) lines /\
    labels Demo.demo_dataset = map (column 0) lines /\
    seqs Demo.demo_dataset = map (column 1) lines /\
    Forall2 (fun line x => Demo.demo_float32 (column 14 line) = Some x) lines
            (log10_ka Demo.demo_dataset) /\
    (exists q, q ∈ seqs Demo.demo_dataset /\ _longest_seq Demo.demo_dataset = len q) /\
    transformer Demo.demo_dataset = Demo.one_hot_transformer /\
    csv_file Demo.demo_dataset = "test_reg.csv"%string.
Proof.
  exact (dataset_load_returns_rows (S := list event) Demo.demo_fs Demo.demo_float32
           "test_reg.csv" Demo.one_hot_transformer Demo.demo_dataset [] [] eq_refl).
Defined.

Lemma dataset_load_missing_file_exits_witness :
  AlphpaSeqDataset__init__ (S := list event) Demo.demo_fs Demo.demo_float32
    "nope.csv" Demo.one_hot_transformer [] =
    (Exited 1, [Print Stderr (PText "File not found error: nope.csv.")]).
Proof.
  exact (dataset_load_missing_file_exits (S := list event) Demo.demo_fs
           Demo.demo_float32 "nope.csv" Demo.one_hot_transformer [] eq_refl).
Defined.

Lemma dataset_load_without_rows_raises_witness :
  AlphpaSeqDataset__init__ (S := list event)
    {[ "h.csv"%string := ["label,seq"%string] ]} Demo.demo_float32
    "h.csv" Demo.one_hot_transformer [] = (Raised ValueError, []).
Proof.
  apply (dataset_load_without_rows_raises (S := list event)
           {[ "h.csv"%string := ["label,seq"%string] ]} Demo.demo_float32
           "h.csv" Demo.one_hot_transformer ["label,seq"%string] []).
  - reflexivity.
  - simpl. lia.
Defined.

(** A data line of two fields: the IndexError of [line[14]] leaves the
    constructor uncaught. *)
Lemma dataset_load_existing_file_never_exits_witness :
  [] = ([] : list event) /\ (IndexError = StopIteration \/ IndexError = IndexError \/
                             IndexError = ValueError).
Proof.
  exact (dataset_load_existing_file_never_exits (S := list event)
           {[ "short.csv"%string := ["label,seq"; "s0,ACD"]%string ]}
           Demo.demo_float32 "short.csv" Demo.one_hot_transformer
           ["label,seq"; "s0,ACD"]%string [] [] (Raised IndexError) eq_refl eq_refl).
Defined.

(** ** Dataset access, further cases *)

Lemma getitem_before_start {A} (l : list A) (idx : Z) :
  idx < - Z.of_nat (length l) -> getitem l idx = Raised IndexError.
Proof.
  intros Hlt. unfold getitem.
  destruct (Z.ltb_spec idx 0) as [_|Hge]; [|lia].
  destruct (Z.ltb_spec (idx + Z.of_nat (length l)) 0) as [_|Hge]; [|lia].
  reflexivity.
Qed.

(** The position that an in-range index denotes. *)
Lemma getitem_in_range {A} (l : list A) (idx : Z) :
  - Z.of_nat (length l) <= idx < Z.of_nat (length l) ->
  exists x,
    l !! Z.to_nat (if idx <? 0 then Z.of_nat (length l) + idx else idx) = Some x /\
    getitem l idx = Return x.
Proof.
  intros [Hlo Hhi]. destruct (Z.ltb_spec idx 0) as [Hneg|Hpos].
  - apply getitem_from_end. lia.
  - pose proof (getitem_nat l (Z.to_nat idx)) as Hg.
    rewrite Z2Nat.id in Hg by assumption. rewrite Hg.
    destruct (l !! Z.to_nat idx) as [x|] eqn:Hx.
    + exists x. split; reflexivity.
    + apply lookup_ge_None in Hx. lia.
Qed.

Section AccessProperties.

Context {F : Type}.
Context {S : Type} `{Console S}.

(** X6. On a loaded dataset, an index below minus the dataset length
    exits the process with status 1 after the same diagnostic as an
    index past the end: the index and the dataset length on the error
    stream. *)
Theorem getitem_below_range_exits (self : AlphpaSeqDataset F) (idx : Z) (s : S) :
  well_formed self ->
  idx < - __len__ self ->
  __getitem__ self idx s =
    (Exited 1,
     emit (Print Stderr
             (PText ("List index out of range: " +:+ str idx +:+
                     ", length: " +:+ str (__len__ self) +:+ "."))) s).
Proof.
  intros [Hseqs _] Hidx. unfold __getitem__, __len__ in *. run.
  rewrite getitem_before_start by (rewrite Hseqs; assumption).
  reflexivity.
Qed.

(** X7. The handler of [__getitem__] spans the embedding: an IndexError
    raised while the sequence of a valid index is embedded is reported
    as 'List index out of range' with that index, and the process exits
    with status 1. *)
Theorem getitem_reports_embedding_index_error (self : AlphpaSeqDataset F) (idx : Z)
    (seq : string) (s s1 : S) :
  getitem (seqs self) idx = Return seq ->
  embed (transformer self) (_longest_seq self) seq s = (Raised IndexError, s1) ->
  __getitem__ self idx s =
    (Exited 1,
     emit (Print Stderr
             (PText ("List index out of range: " +:+ str idx +:+
                     ", length: " +:+ str (__len__ self) +:+ "."))) s1).
Proof.
  intros Hseq Hemb. unfold __getitem__, __len__. run. rewrite Hseq, Hemb.
  reflexivity.
Qed.

(** X8. On a loaded dataset with the TAPE transformer, a tokenizer that
    returns [k] ids more than the sequence has characters and an encoder
    whose sequence output has one row of [hidden] entries per position,
    every in-range index returns its sample (counted from the end when
    negative), prints nothing, and the features have the shape
    [_longest_seq + k, hidden] whatever the length of the sequence. *)
Theorem getitem_tape_features_have_one_shape (self : AlphpaSeqDataset F)
    (mdl : ProteinBertModel F) (k hidden : nat) (idx : Z) (s : S) :
  well_formed self ->
  method (transformer self) = "tape"%string ->
  tape_model (transformer self) = Some mdl ->
  (forall token l, shape token = [1%nat; l] ->
     exists seq_embedding pooled,
       forward mdl token = Return (seq_embedding, pooled) /\
       shape seq_embedding = [1%nat; l; hidden]) ->
  Forall (fun seq => exists toks,
            encode (tape_tokenizer (transformer self)) seq = Return toks /\
            length toks = (String.length seq + k)%nat) (seqs self) ->
  (Z.to_nat (_longest_seq self) + k)%nat <> 1%nat ->
  hidden <> 1%nat ->
  - __len__ self <= idx < __len__ self ->
  let pos := Z.to_nat (if idx <? 0 then __len__ self + idx else idx) in
  exists label t target,
    labels self !! pos = Some label /\
    log10_ka self !! pos = Some target /\
    __getitem__ self idx s = (Return (label, FloatTensor t, target), s) /\
    shape t = [(Z.to_nat (_longest_seq self) + k)%nat; hidden].
Proof.
  intros [Hseqs [Hka Hlong]] Hm Hmdl Hfwd Htok Hn Hh Hidx pos. unfold __len__ in *.
  destruct (getitem_in_range (labels self) idx Hidx) as [label [Hl Hgl]].
  destruct (getitem_in_range (seqs self) idx) as [seq [Hs Hgs]];
    [rewrite Hseqs; assumption|].
  destruct (getitem_in_range (log10_ka self) idx) as [target [Hk Hgk]];
    [rewrite Hka; assumption|].
  rewrite Hseqs in Hs. rewrite Hka in Hk. fold pos in Hl, Hs, Hk.
  assert (Hin : seq ∈ seqs self) by (apply list_elem_of_lookup; eauto).
  rewrite List.Forall_forall in Htok, Hlong.
  apply list_elem_of_In in Hin.
  destruct (Htok seq Hin) as [toks [Henc Hlen]].
  specialize (Hlong seq Hin). cbn beta in Hlong.
  set (padded := toks ++ repeat 0 (Z.to_nat (_longest_seq self - len seq))).
  assert (Hpl : length padded = (Z.to_nat (_longest_seq self) + k)%nat).
  { unfold padded. rewrite length_app, repeat_length, Hlen. unfold len in *. lia. }
  destruct (Hfwd (torch_tensor [padded]) (length padded)) as [se [po [Hrun Hshape]]];
    [reflexivity|].
  exists label, (squeeze se), target.
  split; [assumption|]. split; [assumption|]. split.
  - unfold __getitem__. run. rewrite Hgs.
    unfold embed. rewrite Hm. cbn [String.eqb Ascii.eqb Bool.eqb]. unfold bind.
    rewrite (_embed_tape_returns (transformer self) mdl (_longest_seq self) seq toks
               se po s Henc Hlong Hmdl Hrun).
    unfold ret. rewrite Hgl, Hgk. reflexivity.
  - unfold squeeze. cbn [shape]. rewrite Hshape, Hpl.
    rewrite filter_cons_False by (intros Hx; apply Hx; reflexivity).
    rewrite filter_cons_True by assumption.
    rewrite filter_cons_True by assumption. reflexivity.
Qed.

End AccessProperties.

Lemma getitem_below_range_exits_witness :
  __getitem__ (S := list event) Demo.demo_dataset (-5) [] =
    (Exited 1, [Print Stderr (PText "List index out of range: -5, length: 4.")]).
Proof.
  exact (getitem_below_range_exits (S := list event) Demo.demo_dataset (-5) []
           demo_dataset_well_formed ltac:(unfold __len__; simpl; lia)).
Defined.

(** The longest sequence, eight positions with its start and stop
    tokens, over an encoder of six positions. *)
Lemma getitem_reports_embedding_index_error_witness :
  __getitem__ (S := list event) DemoMore.short_dataset 3 [] =
    (Exited 1, [Print Stderr (PText "List index out of range: 3, length: 4.")]).
Proof.
  exact (getitem_reports_embedding_index_error (S := list event)
           DemoMore.short_dataset 3 "ACDEFG" [] [] eq_refl eq_refl).
Defined.

Lemma tape_dataset_well_formed : well_formed DemoMore.tape_dataset.
Proof.
  unfold well_formed. simpl. repeat split; repeat constructor; unfold len; simpl; lia.
Qed.

Lemma getitem_tape_features_have_one_shape_witness :
  exists label t target,
    labels DemoMore.tape_dataset !! 2%nat = Some label /\
    log10_ka DemoMore.tape_dataset !! 2%nat = Some target /\
    __getitem__ (S := list event) DemoMore.tape_dataset (-2) [] =
      (Return (label, FloatTensor t, target), []) /\
    shape t = [8; 768]%nat.
Proof.
  apply (getitem_tape_features_have_one_shape (S := list event)
           DemoMore.tape_dataset (Demo.zero_encoder 768) 2 768 (-2) []).
  - exact tape_dataset_well_formed.
  - reflexivity.
  - reflexivity.
  - intros token l Hsh. simpl. rewrite Hsh. eexists. eexists.
    split; reflexivity.
  - repeat constructor; eexists; (split; [reflexivity | reflexivity]).
  - simpl. lia.
  - lia.
  - unfold __len__. simpl. lia.
Defined.

(** ** The transformer, further cases *)

Section TransformerProperties.

Context {F : Type}.
Context {S : Type} `{Console S}.

(** X9. A transformer that the constructor returns has one of the two
    methods, with the encoder present exactly for 'tape'; [embed] on it
    runs the path of its method, so the exit of [embed] on an undefined
    method and a missing encoder are not reached. The constructor prints
    nothing. *)
Theorem transformer_init_fixes_the_path (TAPETokenizer : string -> Tokenizer)
    (from_pretrained : string -> ProteinBertModel F) (m : string)
    (tr : Transformer F) (s s' : S) :
  Transformer__init__ TAPETokenizer from_pretrained m s = (Return tr, s') ->
  s' = s /\
  tape_tokenizer tr = TAPETokenizer "iupac"%string /\
  method tr = m /\
  ((m = "one_hot"%string /\ tape_model tr = None /\
    forall max_len seq (s0 : S),
      embed tr max_len seq s0 =
        (t <- _embed_one_hot tr max_len seq ;; ret (IntTensor t)) s0) \/
   (m = "tape"%string /\ tape_model tr = Some (from_pretrained "bert-base"%string) /\
    forall max_len seq (s0 : S),
      embed tr max_len seq s0 =
        (t <- _embed_tape tr max_len seq ;; ret (FloatTensor t)) s0)).
Proof.
  unfold Transformer__init__.
  destruct (String.eqb_spec m "one_hot") as [->|Hne1].
  - unfold ret. intros [= <- <-]. repeat split. left. repeat split.
  - destruct (String.eqb_spec m "tape") as [->|Hne2].
    + unfold ret. intros [= <- <-]. repeat split. right. repeat split.
    + run. discriminate.
Qed.

(** X10. A method name other than 'one_hot' and 'tape' makes the
    constructor print 'unimplemented transform method' on the error
    stream and exit the process with status 1. *)
Theorem transformer_init_unknown_method_exits (TAPETokenizer : string -> Tokenizer)
    (from_pretrained : string -> ProteinBertModel F) (m : string) (s : S) :
  m <> "one_hot"%string ->
  m <> "tape"%string ->
  Transformer__init__ TAPETokenizer from_pretrained m s =
    (Exited 1, emit (Print Stderr (PText "unimplemented transform method")) s).
Proof.
  intros H1 H2. unfold Transformer__init__.
  rewrite (proj2 (String.eqb_neq m "one_hot") H1).
  rewrite (proj2 (String.eqb_neq m "tape") H2). reflexivity.
Qed.

(** X11. The KeyError handler of the one-hot path is never run: inside
    its [try] block padding raises only ValueError and the one-hot
    encoding only RuntimeError. Whatever the input, [_embed_one_hot]
    prints nothing, and it exits only if the tokenizer itself does. *)
Theorem one_hot_handler_is_never_run (self : Transformer F) (max_len : Z)
    (seq : string) (s s' : S) (r : outcome (tensor Z)) :
  _embed_one_hot self max_len seq s = (r, s') ->
  s' = s /\
  match r with
  | Return _ => True
  | Raised e =>
      encode (tape_tokenizer self) seq = Raised e \/ e = ValueError \/ e = RuntimeError
  | Exited c => encode (tape_tokenizer self) seq = Exited c
  end.
Proof.
  unfold _embed_one_hot. run.
  destruct (encode (tape_tokenizer self) seq) as [toks|e|c].
  - unfold np_pad. destruct (max_len - len seq <? 0); simpl.
    + intros [= <- <-]. split; [reflexivity | right; left; reflexivity].
    + unfold one_hot. cbn [data torch_tensor].
      match goal with
      | |- context [(length ?d =? 0)%nat] => destruct (length d =? 0)%nat; simpl
      end.
      * intros [= <- <-]. split; [reflexivity | right; right; reflexivity].
      * match goal with
        | |- context [existsb ?f ?d] => destruct (existsb f d); simpl
        end;
          intros [= <- <-]; (split; [reflexivity|]);
          [right; right; reflexivity | exact I].
  - intros [= <- <-]. split; [reflexivity | left; reflexivity].
  - intros [= <- <-]. split; reflexivity.
Qed.

(** X12. In the one-hot path a sequence longer than [max_len] raises
    the ValueError of the padding; it is not caught (the handler is for
    KeyError) and nothing is printed. *)
Theorem one_hot_padding_error_propagates (self : Transformer F) (max_len : Z)
    (seq : string) (toks : list Z) (s : S) :
  encode (tape_tokenizer self) seq = Return toks ->
  max_len < len seq ->
  _embed_one_hot self max_len seq s = (Raised ValueError, s).
Proof.
  intros Henc Hlt. unfold _embed_one_hot. run. rewrite Henc.
  rewrite (proj2 (np_pad_negative toks (max_len - len seq))) by lia.
  reflexivity.
Qed.

End TransformerProperties.

Lemma transformer_init_fixes_the_path_witness :
  [] = ([] : list event) /\
  tape_tokenizer Demo.tape_transformer = TAPETokenizer_iupac /\
  method Demo.tape_transformer = "tape"%string /\
  (("tape"%string = "one_hot"%string /\ tape_model Demo.tape_transformer = None /\
    forall max_len seq (s0 : list event),
      embed Demo.tape_transformer max_len seq s0 =
        (t <- _embed_one_hot Demo.tape_transformer max_len seq ;; ret (IntTensor t)) s0) \/
   ("tape"%string = "tape"%string /\
    tape_model Demo.tape_transformer = Some (Demo.zero_encoder 768) /\
    forall max_len seq (s0 : list event),
      embed Demo.tape_transformer max_len seq s0 =
        (t <- _embed_tape Demo.tape_transformer max_len seq ;; ret (FloatTensor t)) s0)).
Proof.
  exact (transformer_init_fixes_the_path (S := list event)
           (fun _ => TAPETokenizer_iupac) (fun _ => Demo.zero_encoder 768) "tape"
           Demo.tape_transformer [] [] eq_refl).
Defined.

Lemma transformer_init_unknown_method_exits_witness :
  Transformer__init__ (F := Q) (S := list event) (fun _ => TAPETokenizer_iupac)
    (fun _ => Demo.zero_encoder 768) "glove" [] =
    (Exited 1, [Print Stderr (PText "unimplemented transform method")]).
Proof.
  exact (transformer_init_unknown_method_exits (F := Q) (S := list event)
           (fun _ => TAPETokenizer_iupac) (fun _ => Demo.zero_encoder 768) "glove" []
           ltac:(discriminate) ltac:(discriminate)).
Defined.

Lemma one_hot_handler_is_never_run_witness :
  [] = ([] : list event) /\
  (encode (tape_tokenizer Demo.one_hot_transformer) "A*" = Raised KeyError \/
   KeyError = ValueError \/ KeyError = RuntimeError).
Proof.
  exact (one_hot_handler_is_never_run (F := Q) (S := list event)
           Demo.one_hot_transformer 5 "A*" [] [] (Raised KeyError) eq_refl).
Defined.

Lemma one_hot_padding_error_propagates_witness :
  _embed_one_hot (F := Q) (S := list event) Demo.one_hot_transformer 1 "AC" [] =
    (Raised ValueError, []).
Proof.
  apply (one_hot_padding_error_propagates (F := Q) (S := list event)
           Demo.one_hot_transformer 1 "AC" [2; 5; 7; 3] []).
  - reflexivity.
  - unfold len. simpl. lia.
Defined.

(** ** The run, further properties *)

Section RunProperties.

Context `{Framework}.
















End RunProperties.






(** ** The loss report, further properties *)

Lemma append_inj_l (s a b : string) : s +:+ a = s +:+ b -> a = b.
Proof.
  induction s as [|c s IH]; simpl; intros Heq; [assumption|].
  injection Heq as Heq. apply IH. assumption.
Qed.

Section ReportProperties.

Context `{Framework}.

(** What [plot_history] does, in full, for any two histories. *)
Lemma plot_history_runs (train_losses : list Float) (n_train : Z)
    (test_losses : list Float) (n_test : Z) (save_as : string) (w : world) :
  let rows := combine train_losses test_losses in
  let idx := range 0 (Z.of_nat (length rows)) in
  let c1 := map (fun x => fdiv_int x n_train) (map fst rows) in
  let c2 := map (fun x => fdiv_int x n_test) (map snd rows) in
  let cols := [("training"%string, c1); ("testing"%string, c2)] in
  let fig := {| xlabel := "Epochs"; ylabel := "Average MSE per sample";
                title := "Effect of Epochs on MSE";
                series := [("training"%string, idx, c1); ("testing"%string, idx, c2)] |} in
  let table := to_csv {| index := idx; columns := cols |} in
  exists w',
    plot_history train_losses n_train test_losses n_test save_as w = (Return tt, w') /\
    console w' = console w ++ [Print Stdout (PText (frame_repr idx cols))] /\
    writes w' = writes w ++ [(save_as +:+ ".png", Png fig); (save_as +:+ ".csv", Csv table)] /\
    files w' = <[save_as +:+ ".csv" := Csv table]> (<[save_as +:+ ".png" := Png fig]> (files w)) /\
    globals w' = globals w /\ rng w' = rng w /\ params w' = params w /\
    grads w' = grads w /\ opt_state w' = opt_state w.
Proof.
  intros rows idx c1 c2 cols fig table.
  unfold plot_history, scatter. run. unfold write_file.
  eexists. split; [reflexivity|]. cbn.
  rewrite <- app_assoc. repeat split; reflexivity.
Qed.

(** X18. [plot_history] pairs the two histories with [zip]: for
    histories of any lengths it returns, and the table written to
    [save_as + '.csv'] has, under its header, one row per epoch of the
    shorter history; the entries of the longer one beyond that are
    dropped without an error. *)
Theorem plot_history_truncates_to_shorter (train_losses : list Float) (n_train : Z)
    (test_losses : list Float) (n_test : Z) (save_as : string) (w : world) :
  exists w' table,
    plot_history train_losses n_train test_losses n_test save_as w = (Return tt, w') /\
    files w' !! (save_as +:+ ".csv") = Some (Csv table) /\
    table =
      [CText ""; CText "training"; CText "testing"] ::
      imap (fun i r => [CInt (Z.of_nat i);
                        CFloat (fdiv_int (fst r) n_train);
                        CFloat (fdiv_int (snd r) n_test)])
           (combine train_losses test_losses) /\
    length table = Datatypes.S (Nat.min (length train_losses) (length test_losses)).
Proof.
  destruct (plot_history_runs train_losses n_train test_losses n_test save_as w)
    as [w' [Hrun [_ [_ [Hf _]]]]].
  exists w'. eexists. split; [exact Hrun|].
  split; [rewrite Hf; apply lookup_insert_eq|].
  pose proof (to_csv_history (combine train_losses test_losses)
                (fun x => fdiv_int x n_train) (fun x => fdiv_int x n_test)) as Hcsv.
  split; [exact Hcsv|].
  rewrite Hcsv. cbn [length]. rewrite length_imap, length_combine. reflexivity.
Qed.

(** X19. The chart and the table of a report hold the same data: the
    figure written to [save_as + '.png'] has the two series 'training'
    and 'testing' over one list of epoch indices, and row [i] of the
    table written to [save_as + '.csv'] is the index and the two values
    of point [i] of these series. *)
Theorem plot_history_chart_matches_table (train_losses : list Float) (n_train : Z)
    (test_losses : list Float) (n_test : Z) (save_as : string) (w : world) :
  exists w' fig table idx c1 c2,
    plot_history train_losses n_train test_losses n_test save_as w = (Return tt, w') /\
    files w' !! (save_as +:+ ".png") = Some (Png fig) /\
    files w' !! (save_as +:+ ".csv") = Some (Csv table) /\
    series fig = [("training"%string, idx, c1); ("testing"%string, idx, c2)] /\
    length c1 = length idx /\ length c2 = length idx /\
    length table = Datatypes.S (length idx) /\
    forall i x y1 y2,
      idx !! i = Some x -> c1 !! i = Some y1 -> c2 !! i = Some y2 ->
      table !! Datatypes.S i = Some [CInt x; CFloat y1; CFloat y2].
Proof.
  destruct (plot_history_runs train_losses n_train test_losses n_test save_as w)
    as [w' [Hrun [_ [_ [Hf _]]]]].
  exists w'. do 5 eexists. split; [exact Hrun|].
  split.
  { rewrite Hf. rewrite lookup_insert_ne.
    - apply lookup_insert_eq.
    - intros Heq. apply append_inj_l in Heq. discriminate. }
  split; [rewrite Hf; apply lookup_insert_eq|].
  split; [reflexivity|].
  split; [rewrite !length_map, range_length; lia|].
  split; [rewrite !length_map, range_length; lia|].
  split; [unfold to_csv; cbn [length index]; rewrite length_imap; reflexivity|].
  intros i x y1 y2 Hx Hy1 Hy2. unfold to_csv. cbn [index columns].
  rewrite lookup_cons, list_lookup_imap, Hx.
  cbn [fmap option_fmap option_map omap list_omap snd map].
  rewrite Hy1, Hy2. reflexivity.
Qed.

(** X20. [plot_history] makes one [print] call, of the normalised
    frame (the epoch indices with the two columns divided by the sample
    counts), and writes exactly two files, [save_as + '.png'] and then
    [save_as + '.csv']; every other file, the module namespace and the
    model's parameters, gradients and optimizer state are untouched. *)
Theorem plot_history_touches_two_files (train_losses : list Float) (n_train : Z)
    (test_losses : list Float) (n_test : Z) (save_as : string) (w : world) :
  let rows := combine train_losses test_losses in
  let frame_index := range 0 (Z.of_nat (length rows)) in
  let frame_columns :=
    [("training"%string, map (fun x => fdiv_int x n_train) (map fst rows));
     ("testing"%string, map (fun x => fdiv_int x n_test) (map snd rows))] in
  exists w' png csv,
    plot_history train_losses n_train test_losses n_test save_as w = (Return tt, w') /\
    console w' =
      console w ++ [Print Stdout (PText (frame_repr frame_index frame_columns))] /\
    writes w' = writes w ++ [(save_as +:+ ".png", png); (save_as +:+ ".csv", csv)] /\
    (forall p, p <> save_as +:+ ".png" -> p <> save_as +:+ ".csv" ->
               files w' !! p = files w !! p) /\
    globals w' = globals w /\ params w' = params w /\ grads w' = grads w /\
    opt_state w' = opt_state w.
Proof.
  intros rows frame_index frame_columns.
  destruct (plot_history_runs train_losses n_train test_losses n_test save_as w)
    as [w' [Hrun [Hc [Hw [Hf [Hg [_ [Hp [Hgr Ho]]]]]]]]].
  exists w'. do 2 eexists. split; [exact Hrun|].
  split; [exact Hc|]. split; [exact Hw|].
  split.
  { intros p Hpng Hcsv. rewrite Hf.
    rewrite lookup_insert_ne by congruence. apply lookup_insert_ne. congruence. }
  repeat split; assumption.
Qed.


End ReportProperties.


(** The table that the two-epoch run of the small instance reports: the
    summed losses 55 and 3655 over five training samples, 1513 and
    117613 over two test samples. *)
Example demo_report_table :
  files (snd (@train_and_report Demo.toy [1; 2; 3; 4; 5] [2; 3] 2 32 "cpu" 5 2 "out"
                Demo.script_world)) !! "out.csv"%string =
    Some (Csv [ [CText ""; CText "training"; CText "testing"];
                [CInt 0; @CFloat Demo.toy 11%Q; @CFloat Demo.toy (1513 # 2)%Q];
                [CInt 1; @CFloat Demo.toy 731%Q; @CFloat Demo.toy (117613 # 2)%Q] ]).
Proof. vm_compute. reflexivity. Qed.

(** ** count_parameters *)

Section CountProperties.

Context {S : Type} `{Console S}.

Lemma trainable_cons (name : string) (p : TensorParameter)
    (nps : list (string * TensorParameter)) :
  trainable ((name, p) :: nps) =
    if requires_grad p then (name, numel p) :: trainable nps else trainable nps.
Proof. unfold trainable. simpl. destruct (requires_grad p); reflexivity. Qed.

(** The loop of [count_parameters], from any table and running total. *)
Lemma count_loop (nps : list (string * TensorParameter)) :
  forall (table : PrettyTable) (total : Z) (s : S),
  for_each nps
    (fun np acc =>
       let '(name, parameter) := np in
       let '(table, total_params) := acc in
       if negb (requires_grad parameter) then ret (table, total_params)
       else
         let params := numel parameter in
         let table := add_row table (name, params) in
         ret (table, total_params + params))
    (table, total) s =
  (Return ({| field_names := field_names table;
              rows := rows table ++ trainable nps |},
           total + sum_counts (trainable nps)), s).
Proof.
  induction nps as [|[name p] nps IH]; intros table total s.
  - simpl. unfold ret, sum_counts. simpl. rewrite app_nil_r, Z.add_0_r.
    destruct table; reflexivity.
  - cbn [for_each]. rewrite trainable_cons. unfold bind.
    destruct (requires_grad p); cbn [negb]; unfold ret at 1.
    + rewrite IH. unfold add_row, sum_counts. cbn [field_names rows map snd fold_right].
      rewrite <- app_assoc. cbn [app]. rewrite Z.add_assoc. reflexivity.
    + rewrite IH. reflexivity.
Qed.

Lemma numel_nonneg (p : TensorParameter) : 0 <= numel p.
Proof. unfold numel. lia. Qed.

Lemma sum_counts_trainable_nonneg (nps : list (string * TensorParameter)) :
  0 <= sum_counts (trainable nps).
Proof.
  induction nps as [|[name p] nps IH]; [unfold sum_counts; simpl; lia|].
  rewrite trainable_cons. destruct (requires_grad p); [|exact IH].
  unfold sum_counts in *. cbn [map snd fold_right].
  pose proof (numel_nonneg p). lia.
Qed.

(** X22. [count_parameters] returns the sum of the element counts of
    the parameters that require a gradient; parameters that do not are
    skipped in the total and in the table. It prints the table, one row
    per counted parameter in order, and then the line
    'Total Trainable Params: <total>' followed by an empty line. *)
Theorem count_parameters_counts_trainable (table_str : PrettyTable -> string)
    (named_parameters : list (string * TensorParameter)) (s : S) :
  let total := sum_counts (trainable named_parameters) in
  count_parameters table_str named_parameters s =
    (Return total,
     emit (Print Stdout (PText ("Total Trainable Params: " +:+ str total +:+ newline)))
       (emit (Print Stdout
                (PText (table_str {| field_names := ["Modules"; "Parameters"]%string;
                                     rows := trainable named_parameters |}))) s)) /\
  0 <= total.
Proof.
  intros total. split.
  - unfold count_parameters. unfold bind at 1. rewrite count_loop.
    cbn [field_names rows app]. rewrite Z.add_0_l. reflexivity.
  - apply sum_counts_trainable_nonneg.
Qed.

End CountProperties.

(** The small model: 143 parameter elements in all, 119 of them counted
    (the 24 of the frozen 8 x 3 weight are left out). *)
Example demo_count_parameters :
  fst (count_parameters (S := list event) (fun _ => ""%string)
         DemoRun.small_blstm_parameters []) = Return 119.
Proof. vm_compute. reflexivity. Qed.

(** ** Dataset access with the one-hot transformer *)

Section OneHotAccess.

Context {F : Type}.
Context {S : Type} `{Console S}.

(** X23. On a loaded dataset with the one-hot transformer and a
    tokenizer that returns [k] non-negative ids more than the sequence
    has characters, every in-range index returns its sample and prints
    nothing; the features have shape [1, _longest_seq + k, 1 + m], [m]
    the largest token id of that sample's sequence: the number of
    positions is the same for all samples, the number of classes is not
    fixed by the dataset. *)
Theorem getitem_one_hot_features_shape (self : AlphpaSeqDataset F) (k : nat)
    (idx : Z) (s : S) :
  well_formed self ->
  method (transformer self) = "one_hot"%string ->
  Forall (fun seq => exists toks,
            encode (tape_tokenizer (transformer self)) seq = Return toks /\
            length toks = (String.length seq + k)%nat /\
            Forall (fun x => 0 <= x) toks) (seqs self) ->
  (0 < Z.to_nat (_longest_seq self) + k)%nat ->
  - __len__ self <= idx < __len__ self ->
  let pos := Z.to_nat (if idx <? 0 then __len__ self + idx else idx) in
  exists label seq toks t target,
    labels self !! pos = Some label /\
    seqs self !! pos = Some seq /\
    encode (tape_tokenizer (transformer self)) seq = Return toks /\
    log10_ka self !! pos = Some target /\
    __getitem__ self idx s = (Return (label, IntTensor t, target), s) /\
    shape t = [1%nat; (Z.to_nat (_longest_seq self) + k)%nat;
               Z.to_nat (max_list toks + 1)].
Proof.
  intros [Hseqs [Hka Hlong]] Hm Htok Hn Hidx pos. unfold __len__ in *.
  destruct (getitem_in_range (labels self) idx Hidx) as [label [Hl Hgl]].
  destruct (getitem_in_range (seqs self) idx) as [seq [Hs Hgs]];
    [rewrite Hseqs; assumption|].
  destruct (getitem_in_range (log10_ka self) idx) as [target [Hk Hgk]];
    [rewrite Hka; assumption|].
  rewrite Hseqs in Hs. rewrite Hka in Hk. fold pos in Hl, Hs, Hk.
  assert (Hin : seq ∈ seqs self) by (apply list_elem_of_lookup; eauto).
  rewrite List.Forall_forall in Htok, Hlong.
  apply list_elem_of_In in Hin.
  destruct (Htok seq Hin) as [toks [Henc [Hlen Hpos]]].
  specialize (Hlong seq Hin). cbn beta in Hlong.
  set (padded := toks ++ repeat 0 (Z.to_nat (_longest_seq self - len seq))).
  assert (Hpl : length padded = (Z.to_nat (_longest_seq self) + k)%nat).
  { unfold padded. rewrite length_app, repeat_length, Hlen. unfold len in *. lia. }
  assert (Hne : padded <> []).
  { intros Hnil. rewrite Hnil in Hpl. simpl in Hpl. lia. }
  exists label, seq, toks. eexists. exists target.
  split; [assumption|]. split; [assumption|]. split; [assumption|].
  split; [assumption|]. split.
  - unfold __getitem__. run. rewrite Hgs.
    unfold embed. rewrite Hm. cbn [String.eqb Ascii.eqb Bool.eqb]. unfold bind.
    rewrite (_embed_one_hot_returns (transformer self) (_longest_seq self) seq toks s
               Henc Hlong Hpos Hne).
    unfold ret. rewrite Hgl, Hgk. reflexivity.
  - cbn [shape]. fold padded. rewrite Hpl. reflexivity.
Qed.

End OneHotAccess.

Lemma getitem_one_hot_features_shape_witness :
  exists label seq toks t target,
    labels Demo.demo_dataset !! 0%nat = Some label /\
    seqs Demo.demo_dataset !! 0%nat = Some seq /\
    encode (tape_tokenizer (transformer Demo.demo_dataset)) seq = Return toks /\
    log10_ka Demo.demo_dataset !! 0%nat = Some target /\
    __getitem__ (S := list event) Demo.demo_dataset 0 [] =
      (Return (label, IntTensor t, target), []) /\
    shape t = [1%nat; (Z.to_nat 6 + 2)%nat; Z.to_nat (max_list toks + 1)].
Proof.
  apply (getitem_one_hot_features_shape (S := list event) Demo.demo_dataset 2 0 []).
  - exact demo_dataset_well_formed.
  - reflexivity.
  - repeat constructor; eexists;
      (split; [reflexivity | split; [reflexivity | repeat constructor; lia]]).
  - simpl. lia.
  - unfold __len__. simpl. lia.
Defined.

(** Two samples of the scenario dataset: eight positions each, nine
    classes for "ACD" (largest id 8) and twelve for "ACDEFG" (largest
    id 11). *)
Example demo_one_hot_shapes_differ :
  (exists f, __getitem__ (S := list event) Demo.demo_dataset 0 [] =
               (Return ("s0"%string, f, 1%Q), []) /\
             features_shape f = [1; 8; 9]%nat) /\
  (exists f, __getitem__ (S := list event) Demo.demo_dataset 3 [] =
               (Return ("s3"%string, f, 3%Q), []) /\
             features_shape f = [1; 8; 12]%nat).
Proof.
  split; (eexists; split; [vm_compute; reflexivity | reflexivity]).
Qed.

(** ** The run on a dataset without samples *)

Section EmptyDatasets.

Context `{Framework}.


End EmptyDatasets.

